(** * LTA DataMall MCP server: the tool dispatcher of [src/index.ts]

    A shallow embedding of the two request handlers that [LTAServer]
    registers (list-tools and call-tool), together with the parts of the
    JavaScript runtime and of the axios contract they rely on, and the
    properties of the dispatch contract proved about them. *)

From Stdlib Require Import String Ascii List ZArith DecimalString.
From ExtLib Require Import Structures.Monad Structures.MonadExc.
Import ListNotations.
Import MonadNotation.

Local Open Scope string_scope.
Local Open Scope monad_scope.

#[local] Set Warnings "-register-all".

(* ===================================================================== *)
(** ** JavaScript values that cross the two boundaries                    *)
(* ===================================================================== *)

Module Js.

(** A number value as JSON text can give one: a binary64 value other than
    NaN.  A finite value is held as the numeral [Number::toString] gives
    it, which identifies the value up to the sign of zero: ["0"] for both
    zeros, ["15"], ["1.3521"], ["-0.5"], ["1e+21"], ["5e-7"].  How that
    numeral is computed from the bits is outside this development; JSON
    text whose magnitude overflows parses to an infinity. *)
Inductive Number : Type :=
| Finite (numeral : string)
| Infinity (negative : bool).

(** Values obtained by parsing JSON text: tool arguments arrive in a
    JSON-RPC message and response bodies are parsed by axios.  An object
    lists its own properties in enumeration order, every key once. *)
Inductive Json : Type :=
| JNull
| JBool (b : bool)
| JNum (n : Number)
| JStr (s : string)
| JArr (items : list Json)
| JObj (fields : list (string * Json)).

(** A JavaScript value as the handlers see it: [None] is [undefined]. *)
Definition JsVal : Type := option Json.

Definition undefined : JsVal := None.

(** Property read [o.key] on an object built from JSON. *)
Fixpoint assoc {A : Type} (key : string) (o : list (string * A)) : option A :=
  match o with
  | [] => None
  | (k, v) :: rest => if String.eqb k key then Some v else assoc key rest
  end.

(** [v?.key]: short-circuits to [undefined] on a nullish receiver; the
    primitives and arrays of JSON have no property of the names read in
    this program. *)
Definition optional_get (v : JsVal) (key : string) : JsVal :=
  match v with
  | Some (JObj fields) => assoc key fields
  | _ => undefined
  end.

(** [a ?? b] *)
Definition nullish (v : JsVal) : bool :=
  match v with
  | None | Some JNull => true
  | _ => false
  end.

Definition coalesce (a b : JsVal) : JsVal := if nullish a then b else a.

(** [ToBoolean] *)
Definition truthy (v : JsVal) : bool :=
  match v with
  | None | Some JNull => false
  | Some (JBool b) => b
  | Some (JNum (Finite numeral)) => negb (String.eqb numeral "0")
  | Some (JNum (Infinity _)) => true
  | Some (JStr s) => negb (String.eqb s EmptyString)
  | Some (JArr _) | Some (JObj _) => true
  end.

(** [Number::toString] *)
Definition NumberToString (n : Number) : string :=
  match n with
  | Finite numeral => numeral
  | Infinity false => "Infinity"
  | Infinity true => "-Infinity"
  end.

(** [Array.prototype.join(",")] over the converted elements: [None]
    where converting an element throws. *)
Fixpoint join (converted : list (option string)) : option string :=
  match converted with
  | [] => Some EmptyString
  | [x] => x
  | x :: rest =>
      match x, join rest with
      | Some s, Some t => Some (s ++ "," ++ t)
      | _, _ => None
      end
  end.

(** [ToString], as applied by a template literal; [None] where it throws
    a [TypeError].  An array is joined, its [null] elements giving the
    empty string.  An object is converted by [toString] then [valueOf]:
    with an own property [toString], which no JSON value makes callable,
    neither method yields a primitive and the conversion throws;
    otherwise [Object.prototype.toString] answers. *)
Fixpoint ToString (v : Json) : option string :=
  match v with
  | JNull => Some "null"
  | JBool true => Some "true"
  | JBool false => Some "false"
  | JNum n => Some (NumberToString n)
  | JStr s => Some s
  | JArr items =>
      join (map (fun x => match x with
                          | JNull => Some EmptyString
                          | _ => ToString x
                          end) items)
  | JObj fields =>
      match assoc "toString" fields with
      | Some _ => None
      | None => Some "[object Object]"
      end
  end.

Definition ToStringVal (v : JsVal) : option string :=
  match v with
  | None => Some "undefined"
  | Some j => ToString j
  end.

(** *** [JSON.stringify(value, null, 2)] *)

Definition LF : string := String (ascii_of_nat 10) EmptyString.
Definition DQUOTE : string := String (ascii_of_nat 34) EmptyString.
Definition BACKSLASH : string := String (ascii_of_nat 92) EmptyString.

Definition hex_digit (n : nat) : ascii :=
  if Nat.ltb n 10 then ascii_of_nat (48 + n) else ascii_of_nat (87 + n).

Definition escape_char (c : ascii) : string :=
  let n := nat_of_ascii c in
  if Nat.eqb n 8 then BACKSLASH ++ "b"
  else if Nat.eqb n 9 then BACKSLASH ++ "t"
  else if Nat.eqb n 10 then BACKSLASH ++ "n"
  else if Nat.eqb n 12 then BACKSLASH ++ "f"
  else if Nat.eqb n 13 then BACKSLASH ++ "r"
  else if Nat.eqb n 34 then BACKSLASH ++ DQUOTE
  else if Nat.eqb n 92 then BACKSLASH ++ BACKSLASH
  else if Nat.ltb n 32 then
    BACKSLASH ++ "u00"
      ++ String (hex_digit (Nat.div n 16))
           (String (hex_digit (Nat.modulo n 16)) EmptyString)
  else String c EmptyString.

Fixpoint escape_chars (s : string) : string :=
  match s with
  | EmptyString => EmptyString
  | String c rest => escape_char c ++ escape_chars rest
  end.

Definition QuoteJSONString (s : string) : string :=
  DQUOTE ++ escape_chars s ++ DQUOTE.

(** [SerializeJSONProperty] with a non-empty [gap]; [indent] is the
    current indentation. *)
Fixpoint SerializeJSONProperty (gap indent : string) (v : Json) {struct v}
  : string :=
  let stepback := indent in
  let indent := indent ++ gap in
  let separator := "," ++ LF ++ indent in
  match v with
  | JNull => "null"
  | JBool true => "true"
  | JBool false => "false"
  | JNum (Finite numeral) => numeral
  | JNum (Infinity _) => "null"
  | JStr s => QuoteJSONString s
  | JArr [] => "[]"
  | JArr items =>
      "[" ++ LF ++ indent
        ++ String.concat separator
             (map (SerializeJSONProperty gap indent) items)
        ++ LF ++ stepback ++ "]"
  | JObj [] => "{}"
  | JObj fields =>
      "{" ++ LF ++ indent
        ++ String.concat separator
             (map (fun kv =>
                     match kv with
                     | (k, x) =>
                         QuoteJSONString k ++ ": "
                           ++ SerializeJSONProperty gap indent x
                     end) fields)
        ++ LF ++ stepback ++ "}"
  end.

Fixpoint spaces (n : nat) : string :=
  match n with
  | O => EmptyString
  | S k => " " ++ spaces k
  end.

(** [JSON.stringify(v, null, space)] for a numeric [space] between 1 and
    10; [undefined] is serialized to [undefined]. *)
Definition JSON_stringify (v : JsVal) (space : nat) : option string :=
  match v with
  | None => None
  | Some j => Some (SerializeJSONProperty (spaces space) EmptyString j)
  end.

(** Induction over JSON values that reaches the items of an array and
    the values of an object. *)
Section Json_induction.

Variable P : Json -> Prop.
Hypothesis P_null : P JNull.
Hypothesis P_bool : forall b, P (JBool b).
Hypothesis P_num : forall n, P (JNum n).
Hypothesis P_str : forall s, P (JStr s).
Hypothesis P_arr : forall items, Forall P items -> P (JArr items).
Hypothesis P_obj :
  forall fields, Forall (fun kv => P (snd kv)) fields -> P (JObj fields).


End Json_induction.

End Js.

Import Js.

(* ===================================================================== *)
(** ** The HTTP client and the protocol types                             *)
(* ===================================================================== *)

Module Axios.

Inductive Method : Type := GET | POST | PUT | PATCH | DELETE.

(** The second argument of [axios.get]: the [params] object when the
    caller passes one, and the [headers] object.  A property may hold
    [undefined]. *)
Record RequestConfig : Type := {
  params : option (list (string * JsVal));
  headers : list (string * JsVal)
}.

Record Request : Type := {
  method : Method;
  url : string;
  config : RequestConfig
}.

Record Response : Type := {
  status : Z;
  data : JsVal
}.

(** The decimal numeral of a status code, an integer of three digits. *)
Definition decimal (st : Z) : string :=
  NilZero.string_of_int (Z.to_int st).

End Axios.

Import Axios.

Module Mcp.

Inductive ErrorCode : Type :=
| ConnectionClosed
| RequestTimeout
| ParseError
| InvalidRequest
| MethodNotFound
| InvalidParams
| InternalError.

Record PropertySchema : Type := {
  prop_type : string;
  prop_description : string;
  enum : option (list string)
}.

Record InputSchema : Type := {
  schema_type : string;
  properties : list (string * PropertySchema);
  required : option (list string)
}.

Record Tool : Type := {
  tool_name : string;
  description : string;
  inputSchema : InputSchema
}.

Record ListToolsResult : Type := {
  tools : list Tool
}.

(** [request.params] of a call-tool request. *)
Record CallToolRequest : Type := {
  name : string;
  arguments : option (list (string * Json))
}.

Record TextContent : Type := {
  type : string;
  text : option string
}.

(** [isError] is [None] when the object literal has no such property. *)
Record CallToolResult : Type := {
  content : list TextContent;
  isError : option bool
}.

End Mcp.

Import Mcp.

(** Values that can be thrown while a request is handled. *)
Inductive JsError : Type :=
| AxiosError (message : string) (response : option Response)
| TypeError (message : string)
| McpError (code : ErrorCode) (message : string)
| OtherError (message : string).

(** [axios.isAxiosError] *)
Definition isAxiosError (error : JsError) : bool :=
  match error with
  | AxiosError _ _ => true
  | _ => false
  end.

Definition error_message (error : JsError) : string :=
  match error with
  | AxiosError m _ | TypeError m | McpError _ m | OtherError m => m
  end.

(** [error.response], defined on axios errors that carry one. *)
Definition error_response (error : JsError) : option Response :=
  match error with
  | AxiosError _ r => r
  | _ => None
  end.

(* ===================================================================== *)
(** ** The handler monad                                                   *)
(* ===================================================================== *)

(** How an async handler settles: its promise is fulfilled with a value
    or rejected with the value thrown. *)
Inductive Completion (A : Type) : Type :=
| Returned (a : A)
| Thrown (e : JsError).

Arguments Returned {A} a.
Arguments Thrown {A} e.

(** What the other side of [axios.get] does with a request: it answers
    with a status and a body, it gives no answer (network failure, with
    the transport's message), or the call fails for another reason.  An
    exchange that never completes is outside this model. *)
Inductive Transport : Type :=
| Responded (status : Z) (body : JsVal)
| NoResponse (message : string)
| Faulted (e : JsError).

(** What a handler reads from outside: the process environment and the
    upstream service. *)
Record World : Type := {
  process_env : string -> option string;
  upstream : Request -> Transport
}.

(** A handler reads the world, logs the requests it sends in order, and
    settles. *)
Definition M (A : Type) : Type := World -> list Request * Completion A.

Definition trace {A : Type} (r : list Request * Completion A) : list Request :=
  fst r.

Definition outcome {A : Type} (r : list Request * Completion A) : Completion A :=
  snd r.

#[export] Instance Monad_M : Monad M := {
  ret := fun A (a : A) (_ : World) => ([], Returned a);
  bind := fun A B (m : M A) (f : A -> M B) (w : World) =>
    match m w with
    | (t1, Returned a) =>
        match f a w with
        | (t2, c) => ((t1 ++ t2)%list, c)
        end
    | (t1, Thrown e) => (t1, Thrown e)
    end
}.

(** [throw] and [try { ... } catch (error) { ... }] *)
#[export] Instance MonadExc_M : MonadExc JsError M := {
  raise := fun A (e : JsError) (_ : World) => ([], Thrown e);
  catch := fun A (m : M A) (h : JsError -> M A) (w : World) =>
    match m w with
    | (t1, Returned a) => (t1, Returned a)
    | (t1, Thrown e) =>
        match h e w with
        | (t2, c) => ((t1 ++ t2)%list, c)
        end
    end
}.

(** [process.env[key]] *)
Definition getenv (key : string) : M JsVal :=
  fun w => ([], Returned (option_map JStr (process_env w key))).

(** The default [validateStatus] of axios. *)
Definition validateStatus (status : Z) : bool :=
  (200 <=? status)%Z && (status <? 300)%Z.

(** How a promise returned by axios settles: fulfilled with the response
    on an accepted status, rejected with an axios error carrying the
    response on any other status, rejected with an axios error without a
    response when none arrived. *)
Definition settle (t : Transport) : Completion Response :=
  match t with
  | Responded st body =>
      let response := {| status := st; data := body |} in
      if validateStatus st then Returned response
      else Thrown (AxiosError
                     ("Request failed with status code " ++ decimal st)
                     (Some response))
  | NoResponse msg => Thrown (AxiosError msg None)
  | Faulted e => Thrown e
  end.

(** [await axios.get(url, config)] *)
Definition axios_get (url : string) (config : RequestConfig) : M Response :=
  fun w =>
    let request := {| method := GET; url := url; config := config |} in
    ([request], settle (upstream w request)).

(* ===================================================================== *)
(** ** [LTAServer.setupHandlers]                                           *)
(* ===================================================================== *)

Module LTAServer.

Definition train_lines : list string :=
  ["CCL"; "CEL"; "CGL"; "DTL"; "EWL"; "NEL"; "NSL"; "BPL"; "SLRT"; "PLRT";
   "TEL"].

Definition trainLine_schema : PropertySchema := {|
  prop_type := "string";
  prop_description :=
    "Code of train network line (CCL, CEL, CGL, DTL, EWL, NEL, NSL, BPL, SLRT, PLRT, TEL)";
  enum := Some train_lines
|}.

Definition no_parameters : InputSchema := {|
  schema_type := "object";
  properties := [];
  required := None
|}.

(** The array literal of the list-tools handler. *)
Definition catalog : list Tool := [
      {| tool_name := "bus_arrival";
         description :=
           "Get real-time bus arrival information for a specific bus stop and optionally a specific service number. Returns estimated arrival times, bus locations, and crowding levels.";
         inputSchema := {|
           schema_type := "object";
           properties := [
             ("busStopCode",
              {| prop_type := "string";
                 prop_description := "The unique 5-digit bus stop code";
                 enum := None |});
             ("serviceNo",
              {| prop_type := "string";
                 prop_description :=
                   "Optional bus service number to filter results";
                 enum := None |})
           ];
           required := Some ["busStopCode"]
         |}
      |};
      {| tool_name := "station_crowding";
         description :=
           "Get real-time MRT/LRT station crowdedness level for a particular train network line. Updates every 10 minutes.";
         inputSchema := {|
           schema_type := "object";
           properties := [("trainLine", trainLine_schema)];
           required := Some ["trainLine"]
         |}
      |};
      {| tool_name := "train_alerts";
         description :=
           "Get real-time train service alerts including service disruptions and shuttle services. Updates when there are changes.";
         inputSchema := no_parameters
      |};
      {| tool_name := "carpark_availability";
         description :=
           "Get real-time availability of parking lots for HDB, LTA, and URA carparks. Updates every minute.";
         inputSchema := no_parameters
      |};
      {| tool_name := "travel_times";
         description :=
           "Get estimated travel times on expressway segments. Updates every 5 minutes.";
         inputSchema := no_parameters
      |};
      {| tool_name := "traffic_incidents";
         description :=
           "Get current road incidents including accidents, roadworks, and heavy traffic. Updates every 2 minutes.";
         inputSchema := no_parameters
      |};
      {| tool_name := "station_crowd_forecast";
         description :=
           "Get forecasted MRT/LRT station crowdedness levels in 30-minute intervals.";
         inputSchema := {|
           schema_type := "object";
           properties := [("trainLine", trainLine_schema)];
           required := Some ["trainLine"]
         |}
      |}
    ].

(** The handler registered for [ListToolsRequestSchema]. *)
Definition list_tools : M ListToolsResult :=
  ret {| tools := catalog |}.

(** [const { first, ... } = request.params.arguments]: destructuring
    [undefined] throws a [TypeError]. *)
Definition destructure (args : option (list (string * Json))) (first : string)
  : M (list (string * Json)) :=
  match args with
  | Some fields => ret fields
  | None =>
      raise (TypeError
               ("Cannot destructure property '" ++ first
                  ++ "' of 'request.params.arguments' as it is undefined."))
  end.

(** The [headers] object every call passes. *)
Definition request_headers : M (list (string * JsVal)) :=
  key <- getenv "LTA_API_KEY" ;;
  ret [("AccountKey", key); ("accept", Some (JStr "application/json"))].

(** The object returned from a [try] block. *)
Definition relay (response : Response) : CallToolResult := {|
  content := [{| type := "text";
                 text := JSON_stringify (data response) 2 |}];
  isError := None
|}.

(** [error.response?.data?.Message ?? error.message] *)
Definition failure_message (error : JsError) : JsVal :=
  coalesce
    (optional_get
       (match error_response error with
        | Some response => data response
        | None => undefined
        end)
       "Message")
    (Some (JStr (error_message error))).

(** The body of every [catch (error)] block.  The template literal
    converts the message to a string, which throws for a message that has
    no string form. *)
Definition on_error (error : JsError) : M CallToolResult :=
  if isAxiosError error then
    match ToStringVal (failure_message error) with
    | Some message =>
        ret {|
          content := [{| type := "text";
                         text := Some ("LTA API error: " ++ message) |}];
          isError := Some true
        |}
    | None => raise (TypeError "Cannot convert object to primitive value")
    end
  else raise error.

(** The [try]/[catch] statement shared by the seven cases. *)
Definition fetch (url : string) (params : option (list (string * JsVal)))
  : M CallToolResult :=
  catch
    (headers <- request_headers ;;
     response <- axios_get url {| params := params; headers := headers |} ;;
     ret (relay response))
    on_error.

(** [...(serviceNo && { ServiceNo: serviceNo })]: a falsy operand is the
    value of the conjunction and spreads to no property. *)
Definition spread_ServiceNo (serviceNo : JsVal) : list (string * JsVal) :=
  if truthy serviceNo then [("ServiceNo", serviceNo)] else [].

Definition bus_arrival (request : CallToolRequest) : M CallToolResult :=
  args <- destructure (arguments request) "busStopCode" ;;
  let busStopCode := assoc "busStopCode" args in
  let serviceNo := assoc "serviceNo" args in
  fetch "https://datamall2.mytransport.sg/ltaodataservice/v3/BusArrival"
    (Some (("BusStopCode", busStopCode) :: spread_ServiceNo serviceNo)).

Definition station_crowding (request : CallToolRequest) : M CallToolResult :=
  args <- destructure (arguments request) "trainLine" ;;
  let trainLine := assoc "trainLine" args in
  fetch "https://datamall2.mytransport.sg/ltaodataservice/PCDRealTime"
    (Some [("TrainLine", trainLine)]).

Definition train_alerts : M CallToolResult :=
  fetch "https://datamall2.mytransport.sg/ltaodataservice/TrainServiceAlerts"
    None.

Definition carpark_availability : M CallToolResult :=
  fetch "https://datamall2.mytransport.sg/ltaodataservice/CarParkAvailabilityv2"
    None.

Definition travel_times : M CallToolResult :=
  fetch "https://datamall2.mytransport.sg/ltaodataservice/EstTravelTimes"
    None.

Definition traffic_incidents : M CallToolResult :=
  fetch "https://datamall2.mytransport.sg/ltaodataservice/TrafficIncidents"
    None.

Definition station_crowd_forecast (request : CallToolRequest)
  : M CallToolResult :=
  args <- destructure (arguments request) "trainLine" ;;
  let trainLine := assoc "trainLine" args in
  fetch "https://datamall2.mytransport.sg/ltaodataservice/PCDForecast"
    (Some [("TrainLine", trainLine)]).

(** The handler registered for [CallToolRequestSchema]: the [switch] on
    [request.params.name]. *)
Definition call_tool (request : CallToolRequest) : M CallToolResult :=
  let n := name request in
  if n =? "bus_arrival" then bus_arrival request
  else if n =? "station_crowding" then station_crowding request
  else if n =? "train_alerts" then train_alerts
  else if n =? "carpark_availability" then carpark_availability
  else if n =? "travel_times" then travel_times
  else if n =? "traffic_incidents" then traffic_incidents
  else if n =? "station_crowd_forecast" then station_crowd_forecast request
  else raise (McpError MethodNotFound ("Unknown tool: " ++ n)).

End LTAServer.

Import LTAServer.

(* ===================================================================== *)
(** ** The dispatch contract, as the specification words it               *)
(* ===================================================================== *)

(** The seven tool names, in catalog order. *)
Definition registered_names : list string :=
  ["bus_arrival"; "station_crowding"; "train_alerts"; "carpark_availability";
   "travel_times"; "traffic_incidents"; "station_crowd_forecast"].

Definition no_argument_tools : list string :=
  ["train_alerts"; "carpark_availability"; "travel_times"; "traffic_incidents"].

Definition train_line_tools : list string :=
  ["station_crowding"; "station_crowd_forecast"].

(** Upstream endpoint binding: the fixed path of each tool. *)
Definition endpoint (tool : string) : option string :=
  assoc tool
    [("bus_arrival",
      "https://datamall2.mytransport.sg/ltaodataservice/v3/BusArrival");
     ("station_crowding",
      "https://datamall2.mytransport.sg/ltaodataservice/PCDRealTime");
     ("train_alerts",
      "https://datamall2.mytransport.sg/ltaodataservice/TrainServiceAlerts");
     ("carpark_availability",
      "https://datamall2.mytransport.sg/ltaodataservice/CarParkAvailabilityv2");
     ("travel_times",
      "https://datamall2.mytransport.sg/ltaodataservice/EstTravelTimes");
     ("traffic_incidents",
      "https://datamall2.mytransport.sg/ltaodataservice/TrafficIncidents");
     ("station_crowd_forecast",
      "https://datamall2.mytransport.sg/ltaodataservice/PCDForecast")].

(** Upstream endpoint binding: the query parameters of each tool, each
    with the argument it forwards. *)
Definition forwarded (tool : string) : list (string * string) :=
  match assoc tool
          [("bus_arrival",
            [("BusStopCode", "busStopCode"); ("ServiceNo", "serviceNo")]);
           ("station_crowding", [("TrainLine", "trainLine")]);
           ("station_crowd_forecast", [("TrainLine", "trainLine")])]
  with
  | Some l => l
  | None => []
  end.

(** The enumerated values a tool's schema gives for a parameter. *)
Definition enum_of (parameter : string) (t : Tool) : option (list string) :=
  match assoc parameter (properties (inputSchema t)) with
  | Some p => enum p
  | None => None
  end.

Definition find_tool (n : string) (ts : list Tool) : option Tool :=
  find (fun t => tool_name t =? n) ts.

(** The headers every outbound request must carry. *)
Definition expected_headers (w : World) : list (string * JsVal) :=
  [("AccountKey", option_map JStr (process_env w "LTA_API_KEY"));
   ("accept", Some (JStr "application/json"))].

(** A result flagged as an error, with one text block. *)
Definition flagged (message : string) : CallToolResult := {|
  content := [{| type := "text"; text := Some message |}];
  isError := Some true
|}.

(** A successful result, with one text block. *)
Definition success (body : option string) : CallToolResult := {|
  content := [{| type := "text"; text := body |}];
  isError := None
|}.

(** The [Message] field of the body an axios error carries, when the
    error has a response whose body is an object with a [Message] that is
    not [null]. *)
Definition body_Message (error : JsError) : option Json :=
  match error_response error with
  | Some {| data := Some (JObj fields) |} =>
      match assoc "Message" fields with
      | Some JNull => None
      | m => m
      end
  | _ => None
  end.

(** The text after the prefix: the upstream message when there is one,
    converted to a string where it has a string form, and the error's own
    message otherwise. *)
Definition preferred_message (error : JsError) : option string :=
  match body_Message error with
  | Some m => ToString m
  | None => Some (error_message error)
  end.

(** [s] contains [sub]. *)
Definition contains (s sub : string) : Prop :=
  exists before after, s = before ++ sub ++ after.

(** The request carries query parameter [k]. *)
Definition has_param (k : string) (r : Request) : bool :=
  match params (config r) with
  | Some ps => match assoc k ps with Some _ => true | None => false end
  | None => false
  end.

(** The value query parameter [k] carries. *)
Definition param (k : string) (r : Request) : option JsVal :=
  match params (config r) with
  | Some ps => assoc k ps
  | None => None
  end.

(** The argument mapping without [key]. *)
Fixpoint remove_key (key : string) (args : list (string * Json))
  : list (string * Json) :=
  match args with
  | [] => []
  | (k, v) :: rest =>
      if k =? key then remove_key key rest else (k, v) :: remove_key key rest
  end.

(** The call is signaled as an error: thrown, or returned flagged. *)
Definition signals_error (c : Completion CallToolResult) : Prop :=
  match c with
  | Thrown _ => True
  | Returned r => isError r = Some true
  end.

(** The request built by [axios.get url { params, headers }]. *)
Definition request_to (w : World) (url : string)
  (ps : option (list (string * JsVal))) : Request := {|
  method := GET;
  url := url;
  config := {| params := ps; headers := expected_headers w |}
|}.

(** How a settled upstream exchange becomes the handler's completion. *)
Definition conclude (c : Completion Response) : Completion CallToolResult :=
  match c with
  | Returned response => Returned (success (JSON_stringify (data response) 2))
  | Thrown e =>
      if isAxiosError e
      then match preferred_message e with
           | Some message => Returned (flagged ("LTA API error: " ++ message))
           | None =>
               Thrown (TypeError "Cannot convert object to primitive value")
           end
      else Thrown e
  end.

(** Membership in the seven names, decided. *)
Definition is_registered (n : string) : bool :=
  existsb (String.eqb n) registered_names.

Definition is_no_argument_tool (n : string) : bool :=
  existsb (String.eqb n) no_argument_tools.

Definition is_train_line_tool (n : string) : bool :=
  existsb (String.eqb n) train_line_tools.

(** The completion of a call that issued [request_to w url ps]. *)
Definition fetched (w : World) (url : string)
  (ps : option (list (string * JsVal))) : list Request * Completion CallToolResult :=
  ([request_to w url ps], conclude (settle (upstream w (request_to w url ps)))).

Definition destructure_error (first : string) : JsError :=
  TypeError ("Cannot destructure property '" ++ first
               ++ "' of 'request.params.arguments' as it is undefined.").

(** Case analysis on the [switch]: one goal per [case], in order, and
    one for [default] with the seven disequations. *)
Ltac switch_on n :=
  destruct (String.eqb_spec n "bus_arrival") as [->|?];
  [|destruct (String.eqb_spec n "station_crowding") as [->|?];
  [|destruct (String.eqb_spec n "train_alerts") as [->|?];
  [|destruct (String.eqb_spec n "carpark_availability") as [->|?];
  [|destruct (String.eqb_spec n "travel_times") as [->|?];
  [|destruct (String.eqb_spec n "traffic_incidents") as [->|?];
  [|destruct (String.eqb_spec n "station_crowd_forecast") as [->|?]]]]]]].

(** The three ways a call-tool request is handled. *)
Inductive Dispatched (request : CallToolRequest) (w : World) : Prop :=
| dispatch_default :
    ~ In (name request) registered_names ->
    call_tool request w
    = ([], Thrown (McpError MethodNotFound ("Unknown tool: " ++ name request))) ->
    Dispatched request w
| dispatch_defect (first : string) :
    In (name request) registered_names ->
    ~ In (name request) no_argument_tools ->
    arguments request = None ->
    call_tool request w = ([], Thrown (destructure_error first)) ->
    Dispatched request w
| dispatch_fetch (url : string) (ps : option (list (string * JsVal))) :
    endpoint (name request) = Some url ->
    (In (name request) no_argument_tools -> ps = None) ->
    (forall l k v, ps = Some l -> In (k, v) l ->
       exists a args, In (k, a) (forwarded (name request))
                      /\ arguments request = Some args
                      /\ v = assoc a args) ->
    (forall args k a, arguments request = Some args ->
       In (k, a) (forwarded (name request)) ->
       truthy (assoc a args) = true ->
       exists l, ps = Some l /\ assoc k l = Some (assoc a args)) ->
    call_tool request w = fetched w url ps ->
    Dispatched request w.

(** Bus arrivals: with both arguments supplied, the request carries
    both query parameters with the supplied values. *)
Definition forwards_both (args : list (string * Json)) (w : World) : Prop :=
  forall b s,
    assoc "busStopCode" args = Some b ->
    assoc "serviceNo" args = Some s ->
    exists req,
      trace (call_tool {| name := "bus_arrival"; arguments := Some args |} w)
      = [req]
      /\ param "BusStopCode" req = Some (Some b)
      /\ param "ServiceNo" req = Some (Some s).

(** Train-line tools: a call is signaled as an error and sends no request
    whose [TrainLine] is undefined or empty. *)
Definition rejects_missing_trainLine (tool : string)
  (args : option (list (string * Json))) (w : World) : Prop :=
  let run := call_tool {| name := tool; arguments := args |} w in
  signals_error (outcome run)
  /\ forall req, In req (trace run) ->
       param "TrainLine" req <> Some undefined
       /\ param "TrainLine" req <> Some (Some (JStr EmptyString)).

(** Worlds and requests to run the handlers in. *)
Module Examples.

Definition env (key : string) : option string :=
  if key =? "LTA_API_KEY" then Some "test-account-key" else None.

(** The upstream rejects the account key. *)
Definition rejecting : World := {|
  process_env := env;
  upstream := fun _ =>
    Responded 401 (Some (JObj [("Message", JStr "Invalid Account Key")]))
|}.

(** The upstream rejects the call with a body whose [Message] is [null]. *)
Definition rejecting_null : World := {|
  process_env := env;
  upstream := fun _ => Responded 403 (Some (JObj [("Message", JNull)]))
|}.

(** The upstream rejects the call with a body whose [Message] is an
    object that has a [toString] property. *)
Definition rejecting_unprintable : World := {|
  process_env := env;
  upstream := fun _ =>
    Responded 400
      (Some (JObj [("Message", JObj [("toString", JNum (Finite "0"))])]))
|}.

(** The upstream cannot be reached. *)
Definition unreachable : World := {|
  process_env := env;
  upstream := fun _ => NoResponse "connect ECONNREFUSED 127.0.0.1:443"
|}.

(** The upstream answers 200 with an empty result set. *)
Definition serving : World := {|
  process_env := env;
  upstream := fun _ => Responded 200 (Some (JObj [("value", JArr [])]))
|}.

(** The HTTP call fails with something that is not an axios error. *)
Definition faulty : World := {|
  process_env := env;
  upstream := fun _ => Faulted (OtherError "unexpected defect")
|}.

Definition stop_83139 : CallToolRequest := {|
  name := "bus_arrival";
  arguments := Some [("busStopCode", JStr "83139")]
|}.

Definition stop_83139_service_15 : CallToolRequest := {|
  name := "bus_arrival";
  arguments := Some [("busStopCode", JStr "83139"); ("serviceNo", JStr "15")]
|}.

Definition stop_83139_service_empty : list (string * Json) :=
  [("busStopCode", JStr "83139"); ("serviceNo", JStr EmptyString)].

Definition not_a_tool : CallToolRequest := {|
  name := "not_a_tool";
  arguments := Some []
|}.

Definition alerts : CallToolRequest := {|
  name := "train_alerts";
  arguments := None
|}.

Definition bus_request (ps : list (string * JsVal)) : Request :=
  request_to serving
    "https://datamall2.mytransport.sg/ltaodataservice/v3/BusArrival"
    (Some ps).

End Examples.

(* ===================================================================== *)
(** ** What the two texts of a result are, as stated                      *)
(* ===================================================================== *)




(** Failure text: whenever the rejected response has an object body with
    a [Message] field, the call returns a flagged result whose text is the
    prefix followed by that field. *)
Definition reports_Message_when_present (request : CallToolRequest)
  (w : World) : Prop :=
  forall req st fields m,
    trace (call_tool request w) = [req] ->
    upstream w req = Responded st (Some (JObj fields)) ->
    validateStatus st = false ->
    assoc "Message" fields = Some m ->
    exists message,
      ToString m = Some message
      /\ outcome (call_tool request w)
         = Returned (flagged ("LTA API error: " ++ message)).

(** Forwarding: whenever an argument that the tool forwards is present in
    the mapping, the request carries it under its query parameter. *)
Definition forwards_when_present (request : CallToolRequest) (w : World)
  : Prop :=
  forall args k a v req,
    arguments request = Some args ->
    In (k, a) (forwarded (name request)) ->
    assoc a args = Some v ->
    In req (trace (call_tool request w)) ->
    param k req = Some (Some v).

(* ===================================================================== *)
(** ** The dispatcher as one table-driven router                          *)
(* ===================================================================== *)

(** The query object a tool builds from a present argument mapping: each
    forwarded parameter holds the argument read, and [ServiceNo], the one
    optional parameter, is left out when its argument is not truthy. *)
Definition query (tool : string) (args : list (string * Json))
  : list (string * JsVal) :=
  flat_map
    (fun ka =>
       let v := assoc (snd ka) args in
       if ((fst ka =? "ServiceNo") && negb (truthy v))%bool then []
       else [(fst ka, v)])
    (forwarded tool).

(** One router over the binding tables [endpoint] and [forwarded]. *)
Definition route (request : CallToolRequest) : M CallToolResult :=
  fun w =>
    match endpoint (name request) with
    | None =>
        ([], Thrown (McpError MethodNotFound
                       ("Unknown tool: " ++ name request)))
    | Some u =>
        match forwarded (name request), arguments request with
        | [], _ => fetched w u None
        | ka :: _, None => ([], Thrown (destructure_error (snd ka)))
        | _ :: _, Some args => fetched w u (Some (query (name request) args))
        end
    end.

(** The call sends a request: the name is registered and the handler does
    not fail on an absent argument mapping. *)
Definition sends (request : CallToolRequest) : bool :=
  is_registered (name request)
  && (is_no_argument_tool (name request)
      || match arguments request with Some _ => true | None => false end).

(** The parameters a tool declares in its input schema. *)
Definition declared (t : Tool) : list string :=
  map fst (properties (inputSchema t)).

(** The service root every endpoint lies under. *)
Definition service_root : string :=
  "https://datamall2.mytransport.sg/ltaodataservice/".

(* ===================================================================== *)
(** ** Start-up configuration and process lifecycle                       *)
(* ===================================================================== *)

(** [smithery.yaml]: the start command built from the user's
    configuration. *)
Module Smithery.

Record Config : Type := {
  ltaApiKey : string
}.

Record StartCommand : Type := {
  command : string;
  args : list string;
  env : list (string * string)
}.

(** [(config) => ({ command: 'node', args: ['dist/index.js'],
                    env: { LTA_API_KEY: config.ltaApiKey } })] *)
Definition commandFunction (config : Config) : StartCommand := {|
  command := "node";
  args := ["dist/index.js"];
  env := [("LTA_API_KEY", ltaApiKey config)]
|}.

(** The process runs with the variables the start command sets. *)
Definition started_by (cmd : StartCommand) (w : World) : Prop :=
  forall k v, assoc k (env cmd) = Some v -> process_env w k = Some v.

End Smithery.

(** The statements of the module, the constructor, [setupErrorHandling]
    and [run], as the effects they have on the process. *)
Module Lifecycle.

(** An argument of a console call. *)
Inductive LogItem : Type :=
| Text (s : string)
| Err (e : JsError).

Inductive Effect : Type :=
| DotenvConfig
| NewServer (server_name version : string) (capabilities : list string)
| SetRequestHandler (schema : string)
| SetOnError
| OnSignal (signal : string)
| Connect
| Close
| ConsoleError (items : list LogItem)
| ConsoleLog (items : list LogItem)
| Exit (code : Z).

(** A piece of the program: the effects it has, in order, and how it
    settles. *)
Definition IO (A : Type) : Type := list Effect * Completion A.

#[export] Instance Monad_IO : Monad IO := {
  ret := fun A (a : A) => ([], Returned a);
  bind := fun A B (m : IO A) (f : A -> IO B) =>
    match m with
    | (t1, Returned a) =>
        match f a with
        | (t2, c) => ((t1 ++ t2)%list, c)
        end
    | (t1, Thrown e) => (t1, Thrown e)
    end
}.

#[export] Instance MonadExc_IO : MonadExc JsError IO := {
  raise := fun A (e : JsError) => ([], Thrown e);
  catch := fun A (m : IO A) (h : JsError -> IO A) =>
    match m with
    | (t1, Returned a) => (t1, Returned a)
    | (t1, Thrown e) =>
        match h e with
        | (t2, c) => ((t1 ++ t2)%list, c)
        end
    end
}.

Definition perform (e : Effect) : IO unit := ([e], Returned tt).

(** [await] of a call of the protocol layer; [failure] is the value its
    promise is rejected with, if it is. *)
Definition await (e : Effect) (failure : option JsError) : IO unit :=
  ([e], match failure with
        | None => Returned tt
        | Some err => Thrown err
        end).

Definition setupHandlers : IO unit :=
  perform (SetRequestHandler "ListToolsRequestSchema") ;;
  perform (SetRequestHandler "CallToolRequestSchema").

Definition setupErrorHandling : IO unit :=
  perform SetOnError ;;
  perform (OnSignal "SIGINT").

Definition constructor : IO unit :=
  perform (NewServer "lta-datamall-server" "0.1.0" ["tools"]) ;;
  setupHandlers ;;
  setupErrorHandling.

(** [this.server.onerror] *)
Definition onerror (error : JsError) : IO unit :=
  perform (ConsoleError [Text "[MCP Error]"; Err error]).

(** The listener installed for [SIGINT]. *)
Definition sigint_listener (close_failure : option JsError) : IO unit :=
  await Close close_failure ;;
  perform (Exit 0).

Definition run (connect_failure : option JsError) : IO unit :=
  await Connect connect_failure ;;
  perform (ConsoleError [Text "LTA DataMall MCP server running on stdio"]).

(** The statements of the module, in order: [dotenv.config();], then
    [const server = new LTAServer(); server.run().catch(console.error);].
    What the dotenv library does in its call is its own. *)
Definition main (connect_failure : option JsError) : IO unit :=
  perform DotenvConfig ;;
  constructor ;;
  catch (run connect_failure) (fun e => perform (ConsoleError [Err e])).

(** What happens to the running process afterwards. *)
Inductive Event : Type :=
| SIGINT (close_failure : option JsError)
| ServerError (error : JsError).

(** [Running]: the transport listens on the standard input and keeps the
    process alive.  [Exited]: [process.exit] was called.  [Rejected]: a
    listener's promise was rejected and nobody handles it.  [Drained]:
    nothing keeps the process alive and it ends by itself, without an
    exit call. *)
Inductive Status : Type :=
| Running
| Exited (code : Z)
| Rejected (e : JsError)
| Drained.

Record Process : Type := {
  effects : list Effect;
  status : Status
}.

(** The status after a piece of program ran in a running process:
    [process.exit] ends it, and a rejection nobody handles is left to the
    runtime. *)
Definition status_after (t : list Effect) (c : Completion unit) : Status :=
  match find (fun e => match e with Exit _ => true | _ => false end) t with
  | Some (Exit code) => Exited code
  | _ => match c with
         | Returned _ => Running
         | Thrown e => Rejected e
         end
  end.

Definition listener (ev : Event) : IO unit :=
  match ev with
  | SIGINT close_failure => sigint_listener close_failure
  | ServerError error => onerror error
  end.

Definition step (p : Process) (ev : Event) : Process :=
  match status p with
  | Running =>
      match listener ev with
      | (t, c) => {| effects := (effects p ++ t)%list;
                     status := status_after t c |}
      end
  | _ => p
  end.

(** The process once the module's statements have run.  Only a connected
    transport keeps it alive: the [SIGINT] listener does not, so after a
    failed connect the process ends by itself. *)
Definition start (connect_failure : option JsError) : Process :=
  match main connect_failure with
  | (t, c) =>
      {| effects := t;
         status := match status_after t c, connect_failure with
                   | Running, Some _ => Drained
                   | st, _ => st
                   end |}
  end.

Definition execute (connect_failure : option JsError) (events : list Event)
  : Process :=
  fold_left step events (start connect_failure).

(** The code's own output goes to the diagnostic stream only. *)
Definition writes_stdout (e : Effect) : bool :=
  match e with
  | ConsoleLog _ => true
  | _ => false
  end.

Definition is_exit (e : Effect) : bool :=
  match e with
  | Exit _ => true
  | _ => false
  end.

Definition is_sigint (ev : Event) : bool :=
  match ev with
  | SIGINT _ => true
  | ServerError _ => false
  end.

(** The process keeps the invariant of its log: nothing on the standard
    output; no [Exit] while it runs or after a rejection; once exited,
    the status is 0 and the log ends with [Close; Exit 0], its only
    [Exit]. *)
Definition well_behaved (p : Process) : Prop :=
  existsb writes_stdout (effects p) = false
  /\ match status p with
     | Exited code =>
         code = 0%Z
         /\ exists before,
              effects p = (before ++ [Close; Exit 0])%list
              /\ existsb is_exit before = false
     | _ => existsb is_exit (effects p) = false
     end.

End Lifecycle.

(* ===================================================================== *)
(** ** Running the handlers                                                *)
(* ===================================================================== *)

Lemma failure_message_preferred (e : JsError) :
  ToStringVal (failure_message e) = preferred_message e.
Proof.
  unfold failure_message, preferred_message, body_Message.
  destruct (error_response e) as [[st [[| | | | |fields]|]]|]; cbn; try reflexivity.
  destruct (assoc "Message" fields) as [[]|]; reflexivity.
Qed.

Lemma fetch_run (url : string) (ps : option (list (string * JsVal))) (w : World) :
  fetch url ps w
  = ([request_to w url ps], conclude (settle (upstream w (request_to w url ps)))).
Proof.
  unfold fetch, request_headers, axios_get, getenv, request_to,
    expected_headers.
  cbn.
  destruct (settle _) as [r|e]; cbn.
  - reflexivity.
  - unfold on_error. destruct (isAxiosError e); cbn; [|reflexivity].
    rewrite failure_message_preferred.
    destruct (preferred_message e); reflexivity.
Qed.

Lemma bus_arrival_run (request : CallToolRequest) (w : World) :
  bus_arrival request w
  = match arguments request with
    | Some args =>
        fetched w "https://datamall2.mytransport.sg/ltaodataservice/v3/BusArrival"
          (Some (("BusStopCode", assoc "busStopCode" args)
                   :: spread_ServiceNo (assoc "serviceNo" args)))
    | None => ([], Thrown (destructure_error "busStopCode"))
    end.
Proof.
  unfold bus_arrival, destructure.
  destruct (arguments request) as [args|]; cbn -[fetch]; [|reflexivity].
  rewrite fetch_run. reflexivity.
Qed.

Lemma station_crowding_run (request : CallToolRequest) (w : World) :
  station_crowding request w
  = match arguments request with
    | Some args =>
        fetched w "https://datamall2.mytransport.sg/ltaodataservice/PCDRealTime"
          (Some [("TrainLine", assoc "trainLine" args)])
    | None => ([], Thrown (destructure_error "trainLine"))
    end.
Proof.
  unfold station_crowding, destructure.
  destruct (arguments request) as [args|]; cbn -[fetch]; [|reflexivity].
  rewrite fetch_run. reflexivity.
Qed.

Lemma station_crowd_forecast_run (request : CallToolRequest) (w : World) :
  station_crowd_forecast request w
  = match arguments request with
    | Some args =>
        fetched w "https://datamall2.mytransport.sg/ltaodataservice/PCDForecast"
          (Some [("TrainLine", assoc "trainLine" args)])
    | None => ([], Thrown (destructure_error "trainLine"))
    end.
Proof.
  unfold station_crowd_forecast, destructure.
  destruct (arguments request) as [args|]; cbn -[fetch]; [|reflexivity].
  rewrite fetch_run. reflexivity.
Qed.

Lemma not_registered (n : string) :
  n <> "bus_arrival" -> n <> "station_crowding" -> n <> "train_alerts" ->
  n <> "carpark_availability" -> n <> "travel_times" ->
  n <> "traffic_incidents" -> n <> "station_crowd_forecast" ->
  ~ In n registered_names.
Proof.
  intros H1 H2 H3 H4 H5 H6 H7 HIn. cbn in HIn.
  repeat (destruct HIn as [HIn|HIn]; [symmetry in HIn; contradiction|]).
  exact HIn.
Qed.

Lemma registered_switch (n : string) (A : Type) (a b c d e f g h : A) :
  ~ In n registered_names ->
  (if n =? "bus_arrival" then a
   else if n =? "station_crowding" then b
   else if n =? "train_alerts" then c
   else if n =? "carpark_availability" then d
   else if n =? "travel_times" then e
   else if n =? "traffic_incidents" then f
   else if n =? "station_crowd_forecast" then g
   else h) = h.
Proof.
  intros H.
  repeat match goal with
         | |- context [String.eqb ?x ?y] =>
             destruct (String.eqb_spec x y) as [->|_];
             [exfalso; apply H; cbn; tauto|]
         end.
  reflexivity.
Qed.

Lemma spread_ServiceNo_forwarded (args : list (string * Json)) (k : string)
  (v : JsVal) :
  In (k, v) (("BusStopCode", assoc "busStopCode" args)
               :: spread_ServiceNo (assoc "serviceNo" args)) ->
  (k = "BusStopCode" /\ v = assoc "busStopCode" args)
  \/ (k = "ServiceNo" /\ v = assoc "serviceNo" args).
Proof.
  unfold spread_ServiceNo. intros [H|H].
  - inversion H. left. split; reflexivity.
  - destruct (truthy (assoc "serviceNo" args)); [|contradiction].
    destruct H as [H|[]]. inversion H. right. split; reflexivity.
Qed.

Lemma call_tool_default (request : CallToolRequest) (w : World) :
  ~ In (name request) registered_names ->
  call_tool request w
  = ([], Thrown (McpError MethodNotFound ("Unknown tool: " ++ name request))).
Proof.
  intros H. unfold call_tool. cbv zeta.
  rewrite (registered_switch _ _ _ _ _ _ _ _ _ _ H). reflexivity.
Qed.

Lemma argument_tools_disjoint (n : string) :
  In n ["bus_arrival"; "station_crowding"; "station_crowd_forecast"] ->
  ~ In n no_argument_tools.
Proof.
  cbn. intros H1 H2.
  repeat (destruct H1 as [<-|H1];
          [repeat (destruct H2 as [H2|H2]; [discriminate H2|]); exact H2|]).
  exact H1.
Qed.

Lemma call_tool_dispatched (request : CallToolRequest) (w : World) :
  Dispatched request w.
Proof.
  destruct request as [n args].
  switch_on n.
  - destruct args as [args|].
    + eapply dispatch_fetch;
        [reflexivity | | |
        | change (call_tool ?r w) with (bus_arrival r w);
          rewrite bus_arrival_run; reflexivity].
      * intros H. exfalso. revert H. apply argument_tools_disjoint. cbn. tauto.
      * intros l k v [= <-] HIn. cbn [name arguments].
        apply spread_ServiceNo_forwarded in HIn.
        destruct HIn as [[-> ->]|[-> ->]].
        -- exists "busStopCode", args. cbn. tauto.
        -- exists "serviceNo", args. cbn. tauto.
      * cbn [name arguments]. intros args' k a [= <-] HIn Ht.
        eexists. split; [reflexivity|].
        cbn in HIn. destruct HIn as [[= <- <-]|[[= <- <-]|[]]].
        -- reflexivity.
        -- unfold spread_ServiceNo. rewrite Ht. reflexivity.
    + eapply dispatch_defect;
        [cbn; tauto | apply argument_tools_disjoint; cbn; tauto | reflexivity
        | change (call_tool ?r w) with (bus_arrival r w);
          rewrite bus_arrival_run; reflexivity].
  - destruct args as [args|].
    + eapply dispatch_fetch;
        [reflexivity | | |
        | change (call_tool ?r w) with (station_crowding r w);
          rewrite station_crowding_run; reflexivity].
      * intros H. exfalso. revert H. apply argument_tools_disjoint. cbn. tauto.
      * intros l k v [= <-] [[= <- <-]|[]]. cbn [name arguments].
        exists "trainLine", args. cbn. tauto.
      * cbn [name arguments]. intros args' k a [= <-] HIn Ht.
        eexists. split; [reflexivity|].
        cbn in HIn. destruct HIn as [[= <- <-]|[]]. reflexivity.
    + eapply dispatch_defect;
        [cbn; tauto | apply argument_tools_disjoint; cbn; tauto | reflexivity
        | change (call_tool ?r w) with (station_crowding r w);
          rewrite station_crowding_run; reflexivity].
  - eapply dispatch_fetch;
      [reflexivity | reflexivity | discriminate
      | cbn; intros ? ? ? _ []
      | change (call_tool ?r w) with (train_alerts w); apply fetch_run].
  - eapply dispatch_fetch;
      [reflexivity | reflexivity | discriminate
      | cbn; intros ? ? ? _ []
      | change (call_tool ?r w) with (carpark_availability w); apply fetch_run].
  - eapply dispatch_fetch;
      [reflexivity | reflexivity | discriminate
      | cbn; intros ? ? ? _ []
      | change (call_tool ?r w) with (travel_times w); apply fetch_run].
  - eapply dispatch_fetch;
      [reflexivity | reflexivity | discriminate
      | cbn; intros ? ? ? _ []
      | change (call_tool ?r w) with (traffic_incidents w); apply fetch_run].
  - destruct args as [args|].
    + eapply dispatch_fetch;
        [reflexivity | | |
        | change (call_tool ?r w) with (station_crowd_forecast r w);
          rewrite station_crowd_forecast_run; reflexivity].
      * intros H. exfalso. revert H. apply argument_tools_disjoint. cbn. tauto.
      * intros l k v [= <-] [[= <- <-]|[]]. cbn [name arguments].
        exists "trainLine", args. cbn. tauto.
      * cbn [name arguments]. intros args' k a [= <-] HIn Ht.
        eexists. split; [reflexivity|].
        cbn in HIn. destruct HIn as [[= <- <-]|[]]. reflexivity.
    + eapply dispatch_defect;
        [cbn; tauto | apply argument_tools_disjoint; cbn; tauto | reflexivity
        | change (call_tool ?r w) with (station_crowd_forecast r w);
          rewrite station_crowd_forecast_run; reflexivity].
  - apply dispatch_default; [|apply call_tool_default];
      cbn [name]; apply not_registered; assumption.
Qed.

Lemma is_registered_false (n : string) :
  is_registered n = false -> ~ In n registered_names.
Proof.
  unfold is_registered. intros H HIn.
  assert (E : existsb (String.eqb n) registered_names = true).
  { apply existsb_exists. exists n. split; [exact HIn|apply String.eqb_refl]. }
  rewrite E in H. discriminate.
Qed.

Lemma contains_suffix (before s : string) : contains (before ++ s) s.
Proof.
  exists before, EmptyString.
  assert (E : forall x : string, x ++ EmptyString = x).
  { induction x as [|c x IH]; cbn; [reflexivity|rewrite IH; reflexivity]. }
  rewrite E. reflexivity.
Qed.

(** A thrown value that left [conclude] is not an axios error. *)
Lemma conclude_thrown (c : Completion Response) (e : JsError) :
  conclude c = Thrown e -> isAxiosError e = false.
Proof.
  destruct c as [r|e']; cbn; [discriminate|].
  destruct (isAxiosError e') eqn:E.
  - destruct (preferred_message e'); [discriminate|].
    intros [= <-]. reflexivity.
  - intros [= <-]. exact E.
Qed.

(** A flagged result that left [conclude] comes from an axios error. *)
Lemma conclude_flagged (c : Completion Response) (r : CallToolResult) :
  conclude c = Returned r -> isError r <> None ->
  exists e message,
    c = Thrown e /\ isAxiosError e = true
    /\ preferred_message e = Some message
    /\ r = flagged ("LTA API error: " ++ message).
Proof.
  destruct c as [resp|e]; cbn.
  - intros [= <-] H. cbn in H. contradiction.
  - destruct (isAxiosError e) eqn:E; [|discriminate].
    destruct (preferred_message e) as [message|] eqn:Em; [|discriminate].
    intros [= <-] _. exists e, message.
    split; [reflexivity|]. split; [exact E|].
    split; [exact Em|reflexivity].
Qed.






(** *** Runs on concrete inputs *)

Example stringify_nested :
  JSON_stringify
    (Some (JObj [("Services", JArr [JObj [("ServiceNo", JStr "15");
                                          ("Load", JNull)]]);
                 ("Count", JNum (Finite "1"));
                 ("Empty", JArr [])])) 2
  = Some ("{" ++ LF
          ++ "  " ++ QuoteJSONString "Services" ++ ": [" ++ LF
          ++ "    {" ++ LF
          ++ "      " ++ QuoteJSONString "ServiceNo" ++ ": "
          ++ QuoteJSONString "15" ++ "," ++ LF
          ++ "      " ++ QuoteJSONString "Load" ++ ": null" ++ LF
          ++ "    }" ++ LF
          ++ "  ]," ++ LF
          ++ "  " ++ QuoteJSONString "Count" ++ ": 1," ++ LF
          ++ "  " ++ QuoteJSONString "Empty" ++ ": []" ++ LF
          ++ "}").
Proof. reflexivity. Qed.

Example stringify_escapes :
  QuoteJSONString ("a" ++ LF ++ "b" ++ String (ascii_of_nat 1) EmptyString)
  = DQUOTE ++ "a" ++ BACKSLASH ++ "n" ++ "b" ++ BACKSLASH ++ "u0001" ++ DQUOTE.
Proof. reflexivity. Qed.

Example network_failure_run :
  call_tool Examples.alerts Examples.unreachable
  = ([request_to Examples.unreachable
        "https://datamall2.mytransport.sg/ltaodataservice/TrainServiceAlerts"
        None],
     Returned (flagged "LTA API error: connect ECONNREFUSED 127.0.0.1:443")).
Proof. reflexivity. Qed.

Example null_Message_run :
  outcome (call_tool Examples.alerts Examples.rejecting_null)
  = Returned (flagged "LTA API error: Request failed with status code 403").
Proof. reflexivity. Qed.

Example absent_arguments_run :
  call_tool {| name := "bus_arrival"; arguments := None |} Examples.serving
  = ([], Thrown (destructure_error "busStopCode")).
Proof. reflexivity. Qed.

Example empty_serviceNo_run :
  trace (call_tool {| name := "bus_arrival";
                      arguments := Some Examples.stop_83139_service_empty |}
           Examples.serving)
  = [Examples.bus_request [("BusStopCode", Some (JStr "83139"))]].
Proof. reflexivity. Qed.

(* ===================================================================== *)
(** ** Properties of the dispatch contract                                 *)
(* ===================================================================== *)

(** C1, as amended.  When the HTTP call a handler issues fails at the
    HTTP layer (a status outside 2xx, or no response at all: axios rejects
    with an axios error), the call-tool operation returns, rather than
    throws, a result flagged [isError] whose single text block is
    ['LTA API error: '] followed by the [Message] field of the upstream
    body, converted to a string, when the body has one that is not [null]
    and has a string form (every string, number and boolean has), and by
    the error's own message when the body has no [Message] or a [null]
    one.  In particular a 401 with body [{"Message":"Invalid Account Key"}]
    gives exactly ['LTA API error: Invalid Account Key'], and a failure
    with no response gives the prefix followed by the transport's
    message. *)
Theorem upstream_failure_is_flagged_result
  (request : CallToolRequest) (w : World) (req : Request) (error : JsError) :
  trace (call_tool request w) = [req] ->
  settle (upstream w req) = Thrown error ->
  isAxiosError error = true ->
  (forall message,
     preferred_message error = Some message ->
     outcome (call_tool request w)
     = Returned (flagged ("LTA API error: " ++ message)))
  /\ (forall st fields m message,
        upstream w req = Responded st (Some (JObj fields)) ->
        assoc "Message" fields = Some m ->
        m <> JNull ->
        ToString m = Some message ->
        outcome (call_tool request w)
        = Returned (flagged ("LTA API error: " ++ message)))
  /\ (forall st fields m,
        upstream w req = Responded st (Some (JObj fields)) ->
        assoc "Message" fields = Some (JStr m) ->
        outcome (call_tool request w)
        = Returned (flagged ("LTA API error: " ++ m)))
  /\ (forall st body,
        upstream w req = Responded st body ->
        nullish (optional_get body "Message") = true ->
        outcome (call_tool request w)
        = Returned (flagged ("LTA API error: " ++ error_message error)))
  /\ (upstream w req
      = Responded 401 (Some (JObj [("Message", JStr "Invalid Account Key")])) ->
      outcome (call_tool request w)
      = Returned (flagged "LTA API error: Invalid Account Key"))
  /\ (forall message,
        upstream w req = NoResponse message ->
        outcome (call_tool request w)
        = Returned (flagged ("LTA API error: " ++ message))).
Proof.
  intros Htrace Hsettle Hax.
  assert (G : forall message,
             preferred_message error = Some message ->
             outcome (call_tool request w)
             = Returned (flagged ("LTA API error: " ++ message))).
  { intros message Hm.
    destruct (call_tool_dispatched request w)
      as [_ Heq|first _ _ _ Heq|u ps _ _ _ _ Heq];
      rewrite Heq in Htrace |- *; cbn in Htrace; try discriminate.
    injection Htrace as <-. unfold fetched, outcome. cbn [snd].
    rewrite Hsettle. cbn. rewrite Hax, Hm. reflexivity. }
  split; [exact G|].
  assert (G2 : forall st fields m message,
             upstream w req = Responded st (Some (JObj fields)) ->
             assoc "Message" fields = Some m ->
             m <> JNull ->
             ToString m = Some message ->
             outcome (call_tool request w)
             = Returned (flagged ("LTA API error: " ++ message))).
  { intros st fields m message Hup Hm Hnull Hs. apply G.
    rewrite Hup in Hsettle. cbn in Hsettle.
    destruct (validateStatus st); [discriminate|].
    injection Hsettle as <-.
    unfold preferred_message, body_Message. cbn. rewrite Hm.
    destruct m; try exact Hs. contradiction. }
  split; [exact G2|].
  split; [|split; [|split]].
  - intros st fields m Hup Hm.
    apply (G2 st fields (JStr m) m Hup Hm); [discriminate|reflexivity].
  - intros st body Hup Hm. apply G.
    rewrite Hup in Hsettle. cbn in Hsettle.
    destruct (validateStatus st); [discriminate|].
    injection Hsettle as <-.
    unfold preferred_message, body_Message. cbn.
    destruct body as [[| | | | |fields]|]; try reflexivity.
    cbn in Hm. destruct (assoc "Message" fields) as [[]|];
      try discriminate Hm; reflexivity.
  - intros Hup. apply G. rewrite Hup in Hsettle. cbn in Hsettle.
    injection Hsettle as <-. reflexivity.
  - intros message Hup. apply G. rewrite Hup in Hsettle. cbn in Hsettle.
    injection Hsettle as <-. reflexivity.
Qed.

Lemma upstream_failure_is_flagged_result_witness :
  outcome (call_tool Examples.stop_83139 Examples.rejecting)
  = Returned (flagged "LTA API error: Invalid Account Key").
Proof.
  refine (proj1 (proj2 (proj2 (proj2 (proj2
    (upstream_failure_is_flagged_result Examples.stop_83139 Examples.rejecting
       (request_to Examples.rejecting
          "https://datamall2.mytransport.sg/ltaodataservice/v3/BusArrival"
          (Some [("BusStopCode", Some (JStr "83139"))]))
       (AxiosError "Request failed with status code 401"
          (Some {| status := 401;
                   data := Some (JObj [("Message",
                                        JStr "Invalid Account Key")]) |}))
       _ _ _))))) _); reflexivity.
Defined.

(** C1, as stated, fails.  With a body whose [Message] is present and
    [null] the flagged text carries the error's own message, not the
    field; and with a body whose [Message] is an object that has a
    [toString] property nothing is returned: the template literal throws
    a [TypeError] inside the [catch] block. *)
Lemma Message_is_not_always_reported :
  ~ reports_Message_when_present Examples.alerts Examples.rejecting_null
  /\ ~ reports_Message_when_present Examples.alerts
        Examples.rejecting_unprintable
  /\ outcome (call_tool Examples.alerts Examples.rejecting_null)
     = Returned (flagged "LTA API error: Request failed with status code 403")
  /\ outcome (call_tool Examples.alerts Examples.rejecting_unprintable)
     = Thrown (TypeError "Cannot convert object to primitive value").
Proof.
  split; [|split; [|split; reflexivity]].
  - intros H.
    destruct (H _ 403%Z [("Message", JNull)] JNull
                eq_refl eq_refl eq_refl eq_refl) as [message [Hm Hout]].
    injection Hm as <-. discriminate Hout.
  - intros H.
    destruct (H _ 400%Z [("Message", JObj [("toString", JNum (Finite "0"))])]
                (JObj [("toString", JNum (Finite "0"))])
                eq_refl eq_refl eq_refl eq_refl) as [message [Hm _]].
    discriminate Hm.
Qed.

(** C2. A call-tool request whose name is none of the seven registered
    names throws the protocol error [MethodNotFound] whose message ends
    with, hence contains, the unrecognized name; nothing is returned, so no
    flagged result either, and no handler runs: no request is sent. *)
Theorem unknown_tool_is_method_not_found
  (request : CallToolRequest) (w : World) :
  is_registered (name request) = false ->
  outcome (call_tool request w)
  = Thrown (McpError MethodNotFound ("Unknown tool: " ++ name request))
  /\ contains ("Unknown tool: " ++ name request) (name request)
  /\ (forall r, outcome (call_tool request w) <> Returned r)
  /\ trace (call_tool request w) = [].
Proof.
  intros H. apply is_registered_false in H.
  rewrite (call_tool_default request w H). cbn.
  repeat split.
  - apply (contains_suffix "Unknown tool: ").
  - discriminate.
Qed.

Lemma unknown_tool_is_method_not_found_witness :
  outcome (call_tool Examples.not_a_tool Examples.serving)
  = Thrown (McpError MethodNotFound "Unknown tool: not_a_tool")
  /\ contains "Unknown tool: not_a_tool" "not_a_tool".
Proof.
  destruct (unknown_tool_is_method_not_found Examples.not_a_tool
              Examples.serving eq_refl) as [H1 [H2 _]].
  split; [exact H1|exact H2].
Defined.

Lemma existsb_eqb_In (n : string) (l : list string) :
  existsb (String.eqb n) l = true -> In n l.
Proof.
  intros H. apply existsb_exists in H. destruct H as [x [HIn Heq]].
  apply String.eqb_eq in Heq. subst x. exact HIn.
Qed.

Lemma call_tool_bus_arrival (args : option (list (string * Json))) (w : World) :
  call_tool {| name := "bus_arrival"; arguments := args |} w
  = match args with
    | Some args =>
        fetched w "https://datamall2.mytransport.sg/ltaodataservice/v3/BusArrival"
          (Some (("BusStopCode", assoc "busStopCode" args)
                   :: spread_ServiceNo (assoc "serviceNo" args)))
    | None => ([], Thrown (destructure_error "busStopCode"))
    end.
Proof.
  change (call_tool ?r w) with (bus_arrival r w).
  rewrite bus_arrival_run. reflexivity.
Qed.

(** C3, as amended.  In a [bus_arrival] call with [busStopCode] supplied:
    when [serviceNo] is absent the single outbound GET carries
    [BusStopCode] with the supplied value and no [ServiceNo] at all; when
    [serviceNo] is supplied with a truthy value (such as ["15"]) the GET
    carries both parameters with the supplied values. *)
Theorem bus_arrival_forwards_truthy_serviceNo
  (args : list (string * Json)) (w : World) (b : Json) :
  assoc "busStopCode" args = Some b ->
  (assoc "serviceNo" args = None ->
   exists req,
     trace (call_tool {| name := "bus_arrival"; arguments := Some args |} w)
     = [req]
     /\ method req = GET
     /\ params (config req) = Some [("BusStopCode", Some b)]
     /\ param "BusStopCode" req = Some (Some b)
     /\ has_param "ServiceNo" req = false)
  /\ (forall s,
       assoc "serviceNo" args = Some s ->
       truthy (Some s) = true ->
       exists req,
         trace (call_tool {| name := "bus_arrival"; arguments := Some args |} w)
         = [req]
         /\ method req = GET
         /\ params (config req)
            = Some [("BusStopCode", Some b); ("ServiceNo", Some s)]
         /\ param "BusStopCode" req = Some (Some b)
         /\ param "ServiceNo" req = Some (Some s)).
Proof.
  intros Hb. rewrite call_tool_bus_arrival. unfold fetched, trace. cbn [fst].
  split.
  - intros Hs. eexists. split; [reflexivity|].
    rewrite Hb, Hs. cbn. repeat split.
  - intros s Hs Ht. eexists. split; [reflexivity|].
    rewrite Hb, Hs. unfold spread_ServiceNo. rewrite Ht. cbn. repeat split.
Qed.

Lemma bus_arrival_forwards_truthy_serviceNo_witness :
  exists req,
    trace (call_tool Examples.stop_83139_service_15 Examples.serving) = [req]
    /\ method req = GET
    /\ params (config req)
       = Some [("BusStopCode", Some (JStr "83139"));
               ("ServiceNo", Some (JStr "15"))]
    /\ param "BusStopCode" req = Some (Some (JStr "83139"))
    /\ param "ServiceNo" req = Some (Some (JStr "15")).
Proof.
  exact (proj2 (bus_arrival_forwards_truthy_serviceNo
                  [("busStopCode", JStr "83139"); ("serviceNo", JStr "15")]
                  Examples.serving (JStr "83139") eq_refl)
           (JStr "15") eq_refl eq_refl).
Defined.

(** C3, as stated, fails: with [busStopCode="83139"] and [serviceNo]
    supplied as the empty string, the outbound GET carries no [ServiceNo]. *)
Lemma forwards_both_fails_on_empty_serviceNo :
  ~ forwards_both Examples.stop_83139_service_empty Examples.serving.
Proof.
  intros H.
  destruct (H (JStr "83139") (JStr EmptyString) eq_refl eq_refl)
    as [req [Ht [_ Hs]]].
  cbn in Ht. injection Ht as <-. cbn in Hs. discriminate Hs.
Qed.

Lemma call_tool_train_line (tool : string)
  (args : option (list (string * Json))) (w : World) :
  is_train_line_tool tool = true ->
  exists url,
    endpoint tool = Some url
    /\ call_tool {| name := tool; arguments := args |} w
       = match args with
         | Some args => fetched w url (Some [("TrainLine", assoc "trainLine" args)])
         | None => ([], Thrown (destructure_error "trainLine"))
         end.
Proof.
  intros H. apply existsb_eqb_In in H. cbn in H.
  destruct H as [<-|[<-|[]]]; eexists; (split; [reflexivity|]).
  - change (call_tool ?r w) with (station_crowding r w).
    rewrite station_crowding_run. reflexivity.
  - change (call_tool ?r w) with (station_crowd_forecast r w).
    rewrite station_crowd_forecast_run. reflexivity.
Qed.

(** C4, as amended.  For [station_crowding] and [station_crowd_forecast]:
    when the argument mapping itself is absent the call throws a
    [TypeError] before any request is sent; when the mapping is present
    and omits [trainLine] nothing is validated: exactly one GET is sent to
    the tool's path whose params hold [TrainLine] with the value
    [undefined], and the call completes as the upstream exchange does, so
    with a successful result when the upstream succeeds. *)
Theorem missing_trainLine_is_forwarded_undefined
  (tool : string) (args : list (string * Json)) (w : World) :
  is_train_line_tool tool = true ->
  (exists message,
     call_tool {| name := tool; arguments := None |} w
     = ([], Thrown (TypeError message)))
  /\ (assoc "trainLine" args = None ->
      exists req,
        trace (call_tool {| name := tool; arguments := Some args |} w) = [req]
        /\ method req = GET
        /\ endpoint tool = Some (url req)
        /\ params (config req) = Some [("TrainLine", undefined)]
        /\ outcome (call_tool {| name := tool; arguments := Some args |} w)
           = conclude (settle (upstream w req))
        /\ (forall response,
              settle (upstream w req) = Returned response ->
              outcome (call_tool {| name := tool; arguments := Some args |} w)
              = Returned (success (JSON_stringify (data response) 2)))).
Proof.
  intros H. split.
  - destruct (call_tool_train_line tool None w H) as [u [_ Heq]].
    rewrite Heq. eexists. reflexivity.
  - intros Hmissing.
    destruct (call_tool_train_line tool (Some args) w H) as [u [Hurl Heq]].
    rewrite Heq, Hmissing. unfold fetched, trace, outcome. cbn [fst snd].
    eexists. split; [reflexivity|]. cbn [method url config params request_to].
    repeat split; [exact Hurl|].
    intros response Hok. rewrite Hok. reflexivity.
Qed.

Lemma missing_trainLine_is_forwarded_undefined_witness :
  exists req,
    trace (call_tool {| name := "station_crowding"; arguments := Some [] |}
             Examples.serving) = [req]
    /\ params (config req) = Some [("TrainLine", undefined)]
    /\ outcome (call_tool {| name := "station_crowding"; arguments := Some [] |}
                  Examples.serving)
       = conclude (settle (upstream Examples.serving req)).
Proof.
  destruct (proj2 (missing_trainLine_is_forwarded_undefined
                     "station_crowding" [] Examples.serving eq_refl) eq_refl)
    as [req [H1 [_ [_ [H2 [H3 _]]]]]].
  exists req. split; [exact H1|]. split; [exact H2|exact H3].
Defined.

(** C4, as stated, fails: [station_crowding] called with an argument
    mapping that omits [trainLine] returns a successful, unflagged result
    when the upstream answers 200, after sending a request whose
    [TrainLine] is [undefined]. *)
Lemma missing_trainLine_is_not_rejected :
  ~ rejects_missing_trainLine "station_crowding" (Some []) Examples.serving.
Proof.
  unfold rejects_missing_trainLine. cbn. intros [H _]. discriminate H.
Qed.

(** C5. The list-tools operation returns, in every world and without
    sending a request, the same seven descriptors in catalog order, their
    names pairwise distinct; the [trainLine] parameter of
    [station_crowding] and of [station_crowd_forecast] enumerates exactly
    the eleven line codes. *)
Theorem list_tools_is_static_catalog (w : World) :
  exists ts,
    list_tools w = ([], Returned {| tools := ts |})
    /\ length ts = 7
    /\ map tool_name ts
       = ["bus_arrival"; "station_crowding"; "train_alerts";
          "carpark_availability"; "travel_times"; "traffic_incidents";
          "station_crowd_forecast"]
    /\ NoDup (map tool_name ts)
    /\ option_map (enum_of "trainLine") (find_tool "station_crowding" ts)
       = Some (Some ["CCL"; "CEL"; "CGL"; "DTL"; "EWL"; "NEL"; "NSL"; "BPL";
                     "SLRT"; "PLRT"; "TEL"])
    /\ option_map (enum_of "trainLine") (find_tool "station_crowd_forecast" ts)
       = Some (Some ["CCL"; "CEL"; "CGL"; "DTL"; "EWL"; "NEL"; "NSL"; "BPL";
                     "SLRT"; "PLRT"; "TEL"])
    /\ forall w', list_tools w' = list_tools w.
Proof.
  exists catalog. repeat split.
  cbn.
  repeat (constructor;
          [cbn; intros H;
           repeat (destruct H as [H|H]; [discriminate H|]); exact H|]).
  constructor.
Qed.

(** C6. A call to one of the four tools without arguments, whatever its
    argument mapping (empty and absent included), sends exactly one GET,
    to the tool's path and with no query parameters; when the upstream
    answers that request with a 2xx status the call returns a successful
    result. *)
Theorem no_argument_tools_send_no_query
  (request : CallToolRequest) (w : World) :
  is_no_argument_tool (name request) = true ->
  exists req,
    trace (call_tool request w) = [req]
    /\ method req = GET
    /\ endpoint (name request) = Some (url req)
    /\ params (config req) = None
    /\ (forall st body,
          upstream w req = Responded st body ->
          validateStatus st = true ->
          outcome (call_tool request w)
          = Returned (success (JSON_stringify body 2))).
Proof.
  intros H. apply existsb_eqb_In in H.
  destruct (call_tool_dispatched request w)
    as [Hn _|first _ Hn _ _|u ps Hurl Hps _ _ Heq].
  - exfalso. apply Hn. cbn in H |- *. tauto.
  - contradiction.
  - rewrite (Hps H) in Heq. rewrite Heq. unfold fetched, trace, outcome.
    cbn [fst snd]. eexists. split; [reflexivity|].
    cbn [method url config params request_to]. repeat split; [exact Hurl|].
    intros st body Hup Hok. rewrite Hup. cbn. rewrite Hok. reflexivity.
Qed.

Lemma no_argument_tools_send_no_query_witness :
  exists req,
    trace (call_tool Examples.alerts Examples.serving) = [req]
    /\ params (config req) = None
    /\ outcome (call_tool Examples.alerts Examples.serving)
       = Returned (success (JSON_stringify
                              (Some (JObj [("value", JArr [])])) 2)).
Proof.
  destruct (no_argument_tools_send_no_query Examples.alerts Examples.serving
              eq_refl) as [req [H1 [_ [_ [H2 H3]]]]].
  exists req. split; [exact H1|]. split; [exact H2|].
  apply (H3 200%Z). 
  - cbn in H1. injection H1 as <-. reflexivity.
  - reflexivity.
Defined.



(** C8, as amended.  Every request a call-tool invocation sends is a GET
    to the fixed path bound to the tool, with the headers [AccountKey],
    holding the value of the environment variable [LTA_API_KEY], and
    [accept], holding [application/json], and it is the only request
    sent.  Its query is exactly this: [BusStopCode] always holds the
    caller's [busStopCode] and [TrainLine] always holds the caller's
    [trainLine], unchanged, and [undefined] when the argument is missing;
    [ServiceNo] holds the caller's [serviceNo] unchanged when that value
    is truthy and is left out otherwise; the four other tools send no
    query.  Every query parameter carried is one the tool forwards and
    holds the caller's argument unchanged. *)
Theorem outbound_request_invariant
  (request : CallToolRequest) (w : World) (req : Request) :
  In req (trace (call_tool request w)) ->
  trace (call_tool request w) = [req]
  /\ method req = GET
  /\ endpoint (name request) = Some (url req)
  /\ headers (config req)
     = [("AccountKey", option_map JStr (process_env w "LTA_API_KEY"));
        ("accept", Some (JStr "application/json"))]
  /\ (forall l k v,
        params (config req) = Some l -> In (k, v) l ->
        exists a args,
          In (k, a) (forwarded (name request))
          /\ arguments request = Some args
          /\ v = assoc a args)
  /\ (forall args k a,
        arguments request = Some args ->
        In (k, a) (forwarded (name request)) ->
        truthy (assoc a args) = true ->
        param k req = Some (assoc a args))
  /\ (name request = "bus_arrival" ->
      exists args,
        arguments request = Some args
        /\ params (config req)
           = Some (("BusStopCode", assoc "busStopCode" args)
                     :: (if truthy (assoc "serviceNo" args)
                         then [("ServiceNo", assoc "serviceNo" args)]
                         else []))
        /\ param "BusStopCode" req = Some (assoc "busStopCode" args)
        /\ param "ServiceNo" req
           = (if truthy (assoc "serviceNo" args)
              then Some (assoc "serviceNo" args)
              else None))
  /\ (is_train_line_tool (name request) = true ->
      exists args,
        arguments request = Some args
        /\ params (config req) = Some [("TrainLine", assoc "trainLine" args)]
        /\ param "TrainLine" req = Some (assoc "trainLine" args))
  /\ (is_no_argument_tool (name request) = true ->
      params (config req) = None).
Proof.
  intros HIn.
  assert (Old :
    trace (call_tool request w) = [req]
    /\ method req = GET
    /\ endpoint (name request) = Some (url req)
    /\ headers (config req)
       = [("AccountKey", option_map JStr (process_env w "LTA_API_KEY"));
          ("accept", Some (JStr "application/json"))]
    /\ (forall l k v,
          params (config req) = Some l -> In (k, v) l ->
          exists a args,
            In (k, a) (forwarded (name request))
            /\ arguments request = Some args
            /\ v = assoc a args)
    /\ (forall args k a,
          arguments request = Some args ->
          In (k, a) (forwarded (name request)) ->
          truthy (assoc a args) = true ->
          param k req = Some (assoc a args))
    /\ (is_no_argument_tool (name request) = true ->
        params (config req) = None)).
  { revert HIn.
    destruct (call_tool_dispatched request w)
      as [_ Heq|first _ _ _ Heq|u ps Hurl Hno Hfw Htr Heq]; rewrite Heq;
      unfold fetched, trace; cbn [fst]; intros HIn; try contradiction.
    destruct HIn as [<-|[]].
    cbn [method url config params headers request_to].
    repeat split; try assumption.
    - intros args k a Ha HIn Ht. unfold param. cbn [config params request_to].
      destruct (Htr args k a Ha HIn Ht) as [l [-> Hl]]. exact Hl.
    - intros Hn. apply Hno. apply existsb_eqb_In. exact Hn. }
  destruct Old as [O1 [O2 [O3 [O4 [O5 [O6 O7]]]]]].
  repeat (split; [assumption|]).
  destruct request as [n a]. cbn [name arguments] in *.
  split; [|split; [|exact O7]].
  - intros ->. rewrite call_tool_bus_arrival in HIn.
    destruct a as [args|]; [|contradiction].
    destruct HIn as [<-|[]]. exists args. split; [reflexivity|].
    unfold param, spread_ServiceNo. cbn [config params request_to].
    destruct (truthy (assoc "serviceNo" args)); repeat split.
  - intros Htool.
    destruct (call_tool_train_line n a w Htool) as [u [_ Heq]].
    rewrite Heq in HIn. destruct a as [args|]; [|contradiction].
    destruct HIn as [<-|[]]. exists args. repeat split.
Qed.

Lemma outbound_request_invariant_witness :
  method (Examples.bus_request [("BusStopCode", Some (JStr "83139"));
                                ("ServiceNo", Some (JStr "15"))]) = GET
  /\ headers (config (Examples.bus_request
                        [("BusStopCode", Some (JStr "83139"));
                         ("ServiceNo", Some (JStr "15"))]))
     = [("AccountKey", Some (JStr "test-account-key"));
        ("accept", Some (JStr "application/json"))]
  /\ param "ServiceNo"
       (Examples.bus_request [("BusStopCode", Some (JStr "83139"));
                              ("ServiceNo", Some (JStr "15"))])
     = Some (Some (JStr "15")).
Proof.
  destruct (outbound_request_invariant Examples.stop_83139_service_15
              Examples.serving
              (Examples.bus_request [("BusStopCode", Some (JStr "83139"));
                                     ("ServiceNo", Some (JStr "15"))])
              (or_introl eq_refl)) as [_ [H1 [_ [H2 [_ [_ [H3 _]]]]]]].
  split; [exact H1|]. split; [exact H2|].
  destruct (H3 eq_refl) as [args [Ha [_ [_ Hs]]]].
  injection Ha as <-. exact Hs.
Defined.

(** C8, as stated, fails: in a [bus_arrival] call whose [serviceNo] is
    present and is the empty string, the request carries no [ServiceNo],
    so a query parameter of the tool that is present is not forwarded. *)
Lemma present_serviceNo_is_not_always_forwarded :
  ~ forwards_when_present
      {| name := "bus_arrival";
         arguments := Some Examples.stop_83139_service_empty |}
      Examples.serving.
Proof.
  intros H.
  specialize (H Examples.stop_83139_service_empty "ServiceNo" "serviceNo"
                (JStr EmptyString)
                (Examples.bus_request [("BusStopCode", Some (JStr "83139"))])
                eq_refl (or_intror (or_introl eq_refl)) eq_refl
                (or_introl eq_refl)).
  discriminate H.
Qed.

(** C9. A failure that is not an axios error leaves the call-tool
    operation as a thrown exception, never as a flagged result: the value
    thrown by the HTTP call is rethrown unchanged, and destructuring an
    absent argument mapping throws a [TypeError].  Conversely a returned
    result is flagged only when the HTTP call failed with an axios error,
    and no axios error is ever thrown: the two channels are disjoint. *)
Theorem defects_propagate_as_exceptions
  (request : CallToolRequest) (w : World) :
  (forall req e,
     trace (call_tool request w) = [req] ->
     settle (upstream w req) = Thrown e ->
     isAxiosError e = false ->
     outcome (call_tool request w) = Thrown e)
  /\ (is_registered (name request) = true ->
      is_no_argument_tool (name request) = false ->
      arguments request = None ->
      exists message,
        call_tool request w = ([], Thrown (TypeError message)))
  /\ (forall r,
        outcome (call_tool request w) = Returned r ->
        isError r <> None ->
        exists req e,
          trace (call_tool request w) = [req]
          /\ settle (upstream w req) = Thrown e
          /\ isAxiosError e = true
          /\ exists message,
               preferred_message e = Some message
               /\ r = flagged ("LTA API error: " ++ message))
  /\ (forall e,
        outcome (call_tool request w) = Thrown e -> isAxiosError e = false).
Proof.
  split; [|split; [|split]].
  - intros req e Ht Hs Hax.
    destruct (call_tool_dispatched request w)
      as [_ Heq|first _ _ _ Heq|u ps _ _ _ _ Heq];
      rewrite Heq in Ht |- *; cbn in Ht; try discriminate.
    injection Ht as <-. unfold fetched, outcome. cbn [snd].
    rewrite Hs. cbn. rewrite Hax. reflexivity.
  - destruct request as [n a]. cbn [name arguments].
    intros Hreg Hno ->. apply existsb_eqb_In in Hreg.
    switch_on n; try discriminate Hno.
    + rewrite call_tool_bus_arrival. eexists. reflexivity.
    + destruct (call_tool_train_line "station_crowding" None w eq_refl)
        as [u [_ Heq]]. rewrite Heq. eexists. reflexivity.
    + destruct (call_tool_train_line "station_crowd_forecast" None w eq_refl)
        as [u [_ Heq]]. rewrite Heq. eexists. reflexivity.
    + exfalso. revert Hreg. apply not_registered; assumption.
  - intros r Hr Hflag.
    destruct (call_tool_dispatched request w)
      as [_ Heq|first _ _ _ Heq|u ps _ _ _ _ Heq];
      rewrite Heq in Hr |- *; cbn in Hr; try discriminate.
    destruct (conclude_flagged _ _ Hr Hflag)
      as [e [message [He [Hax [Hm Hres]]]]].
    exists (request_to w u ps), e.
    split; [reflexivity|]. split; [exact He|]. split; [exact Hax|].
    exists message. split; assumption.
  - intros e He.
    destruct (call_tool_dispatched request w)
      as [_ Heq|first _ _ _ Heq|u ps _ _ _ _ Heq];
      rewrite Heq in He; cbn in He.
    + injection He as <-. reflexivity.
    + injection He as <-. reflexivity.
    + apply conclude_thrown in He. exact He.
Qed.

Lemma defects_propagate_as_exceptions_witness :
  outcome (call_tool Examples.stop_83139 Examples.faulty)
  = Thrown (OtherError "unexpected defect").
Proof.
  exact (proj1 (defects_propagate_as_exceptions Examples.stop_83139
                  Examples.faulty)
           (request_to Examples.faulty
              "https://datamall2.mytransport.sg/ltaodataservice/v3/BusArrival"
              (Some [("BusStopCode", Some (JStr "83139"))]))
           (OtherError "unexpected defect") eq_refl eq_refl eq_refl).
Defined.

Lemma assoc_remove_key_same (key : string) (args : list (string * Json)) :
  assoc key (remove_key key args) = None.
Proof.
  induction args as [|[k v] rest IH]; cbn; [reflexivity|].
  destruct (String.eqb k key) eqn:E; [exact IH|].
  cbn. rewrite E. exact IH.
Qed.

Lemma assoc_remove_key_other (key other : string)
  (args : list (string * Json)) :
  other <> key ->
  assoc other (remove_key key args) = assoc other args.
Proof.
  intros Hne. induction args as [|[k v] rest IH]; cbn; [reflexivity|].
  destruct (String.eqb_spec k key) as [->|Hk].
  - destruct (String.eqb_spec key other) as [->|_]; [contradiction|exact IH].
  - cbn. rewrite IH. reflexivity.
Qed.

(** C10. In a [bus_arrival] call whose [serviceNo] is not truthy (the
    empty string, or any other falsy value), the outbound GET carries
    [BusStopCode] alone, and the whole call runs exactly as it does on the
    argument mapping with [serviceNo] removed: the key being present is
    not enough for [ServiceNo] to be forwarded. *)
Theorem falsy_serviceNo_is_not_forwarded
  (args : list (string * Json)) (w : World) :
  truthy (assoc "serviceNo" args) = false ->
  call_tool {| name := "bus_arrival"; arguments := Some args |} w
  = call_tool {| name := "bus_arrival";
                 arguments := Some (remove_key "serviceNo" args) |} w
  /\ exists req,
       trace (call_tool {| name := "bus_arrival"; arguments := Some args |} w)
       = [req]
       /\ params (config req)
          = Some [("BusStopCode", assoc "busStopCode" args)]
       /\ has_param "ServiceNo" req = false.
Proof.
  intros Hfalsy. rewrite !call_tool_bus_arrival.
  rewrite assoc_remove_key_same, assoc_remove_key_other by discriminate.
  unfold spread_ServiceNo. rewrite Hfalsy. cbn [truthy].
  split; [reflexivity|].
  eexists. split; [reflexivity|]. split; reflexivity.
Qed.

Lemma falsy_serviceNo_is_not_forwarded_witness :
  call_tool {| name := "bus_arrival";
               arguments := Some Examples.stop_83139_service_empty |}
    Examples.serving
  = call_tool Examples.stop_83139 Examples.serving.
Proof.
  exact (proj1 (falsy_serviceNo_is_not_forwarded
                  Examples.stop_83139_service_empty Examples.serving eq_refl)).
Defined.

(* ===================================================================== *)
(** ** Further properties of the handlers                                  *)
(* ===================================================================== *)

(** Decide every string comparison in the goal that the hypotheses
    refute. *)
Ltac refute_eqb :=
  repeat match goal with
         | |- context [String.eqb ?a ?b] =>
             destruct (String.eqb_spec a b); [congruence|]
         end.

(** The binding tables on each kind of name. *)
Lemma binding_cases (n : string) :
  (is_registered n = false /\ endpoint n = None)
  \/ (is_registered n = true
      /\ exists u, endpoint n = Some u
         /\ String.prefix service_root u = true
         /\ ((is_no_argument_tool n = true /\ forwarded n = [])
             \/ (is_no_argument_tool n = false
                 /\ exists ka l, forwarded n = ka :: l))).
Proof.
  switch_on n;
    try (right; split; [reflexivity|]; eexists; split; [reflexivity|];
         split; [reflexivity|];
         first [left; split; reflexivity
               |right; split; [reflexivity|]; eexists; eexists; reflexivity]).
  left. unfold is_registered, endpoint. cbn -[String.eqb]. refute_eqb.
  split; reflexivity.
Qed.

Lemma call_tool_station_crowding
  (args : option (list (string * Json))) (w : World) :
  call_tool {| name := "station_crowding"; arguments := args |} w
  = match args with
    | Some args =>
        fetched w "https://datamall2.mytransport.sg/ltaodataservice/PCDRealTime"
          (Some [("TrainLine", assoc "trainLine" args)])
    | None => ([], Thrown (destructure_error "trainLine"))
    end.
Proof.
  change (call_tool ?r w) with (station_crowding r w).
  rewrite station_crowding_run. reflexivity.
Qed.

Lemma call_tool_station_crowd_forecast
  (args : option (list (string * Json))) (w : World) :
  call_tool {| name := "station_crowd_forecast"; arguments := args |} w
  = match args with
    | Some args =>
        fetched w "https://datamall2.mytransport.sg/ltaodataservice/PCDForecast"
          (Some [("TrainLine", assoc "trainLine" args)])
    | None => ([], Thrown (destructure_error "trainLine"))
    end.
Proof.
  change (call_tool ?r w) with (station_crowd_forecast r w).
  rewrite station_crowd_forecast_run. reflexivity.
Qed.

(** The [switch] and its seven cases compute what the router computes. *)
Lemma call_tool_route (request : CallToolRequest) (w : World) :
  call_tool request w = route request w.
Proof.
  destruct request as [n a]. switch_on n.
  - rewrite call_tool_bus_arrival. unfold route, query. cbn.
    destruct a as [args|]; [|reflexivity].
    unfold spread_ServiceNo.
    destruct (truthy (assoc "serviceNo" args)); reflexivity.
  - rewrite call_tool_station_crowding. unfold route, query. cbn.
    destruct a; reflexivity.
  - change (call_tool ?r w) with (train_alerts w). apply fetch_run.
  - change (call_tool ?r w) with (carpark_availability w). apply fetch_run.
  - change (call_tool ?r w) with (travel_times w). apply fetch_run.
  - change (call_tool ?r w) with (traffic_incidents w). apply fetch_run.
  - rewrite call_tool_station_crowd_forecast. unfold route, query. cbn.
    destruct a; reflexivity.
  - rewrite call_tool_default by (apply not_registered; assumption).
    unfold route, endpoint. cbn -[String.eqb]. refute_eqb. reflexivity.
Qed.

(** X1. The [switch] with its seven hand-written cases is one router
    driven by the binding tables: a name without a binding is rejected
    with [MethodNotFound], a tool that forwards nothing fetches its path
    without a query, and a tool that forwards arguments fails on an absent
    mapping and otherwise fetches its path with the query built from the
    mapping. *)
Theorem call_tool_is_table_driven (request : CallToolRequest) (w : World) :
  call_tool request w = route request w.
Proof.
  exact (call_tool_route request w).
Qed.

(** X2. A call sends at most one request, also when the upstream fails:
    exactly one when the name is registered and the handler does not fail
    on an absent argument mapping, none otherwise; and a call that sends
    none throws. *)
Theorem one_request_or_none (request : CallToolRequest) (w : World) :
  length (trace (call_tool request w)) = (if sends request then 1 else 0)
  /\ (sends request = false ->
      trace (call_tool request w) = []
      /\ exists e, outcome (call_tool request w) = Thrown e).
Proof.
  rewrite call_tool_route. unfold route, sends.
  destruct request as [n a]. cbn [name arguments].
  destruct (binding_cases n)
    as [[-> ->]|[-> [u [-> [_ [[-> ->]|[-> [ka [l ->]]]]]]]]]; cbn.
  - split; [reflexivity|]. intros _. split; [reflexivity|].
    eexists. reflexivity.
  - split; [reflexivity|]. discriminate.
  - destruct a as [args|]; cbn.
    + split; [reflexivity|]. discriminate.
    + split; [reflexivity|]. intros _. split; [reflexivity|].
      eexists. reflexivity.
Qed.

Lemma one_request_or_none_witness :
  trace (call_tool {| name := "station_crowding"; arguments := None |}
           Examples.serving) = []
  /\ exists e,
       outcome (call_tool {| name := "station_crowding"; arguments := None |}
                  Examples.serving) = Thrown e.
Proof.
  exact (proj2 (one_request_or_none
                  {| name := "station_crowding"; arguments := None |}
                  Examples.serving) eq_refl).
Defined.

(** X3. The caller's arguments reach the query only: two calls of the
    same tool, whatever their argument mappings, send to the same URL with
    the same method and the same headers. *)
Theorem arguments_cannot_redirect
  (n : string) (a1 a2 : option (list (string * Json))) (w : World)
  (r1 r2 : Request) :
  In r1 (trace (call_tool {| name := n; arguments := a1 |} w)) ->
  In r2 (trace (call_tool {| name := n; arguments := a2 |} w)) ->
  method r1 = method r2
  /\ url r1 = url r2
  /\ headers (config r1) = headers (config r2).
Proof.
  rewrite !call_tool_route. unfold route. cbn [name arguments].
  destruct (endpoint n) as [u|]; [|intros []].
  destruct (forwarded n) as [|ka l].
  - intros [<-|[]] [<-|[]]. repeat split.
  - destruct a1, a2; cbn; try (intros []; fail); try (intros _ []; fail).
    intros [<-|[]] [<-|[]]. repeat split.
Qed.

Lemma arguments_cannot_redirect_witness :
  url (Examples.bus_request [("BusStopCode", Some (JStr "83139"))])
  = url (Examples.bus_request [("BusStopCode", Some (JStr "83139"));
                               ("ServiceNo", Some (JStr "15"))]).
Proof.
  exact (proj1 (proj2 (arguments_cannot_redirect "bus_arrival"
                         (Some [("busStopCode", JStr "83139")])
                         (Some [("busStopCode", JStr "83139");
                                ("serviceNo", JStr "15")])
                         Examples.serving _ _
                         (or_introl eq_refl) (or_introl eq_refl)))).
Defined.

(** X4. Every request, and so the account key in its headers, goes by GET
    to a URL under the one service root
    [https://datamall2.mytransport.sg/ltaodataservice/]. *)
Theorem requests_stay_under_service_root
  (request : CallToolRequest) (w : World) (req : Request) :
  In req (trace (call_tool request w)) ->
  method req = GET /\ String.prefix service_root (url req) = true.
Proof.
  rewrite call_tool_route. unfold route.
  destruct (binding_cases (name request))
    as [[_ ->]|[_ [u [-> [Hroot _]]]]]; [intros []|].
  destruct (forwarded (name request)) as [|ka l].
  - intros [<-|[]]. split; [reflexivity|exact Hroot].
  - destruct (arguments request); cbn; [|intros []].
    intros [<-|[]]. split; [reflexivity|exact Hroot].
Qed.

Lemma requests_stay_under_service_root_witness :
  String.prefix service_root
    (url (Examples.bus_request [("BusStopCode", Some (JStr "83139"))]))
  = true.
Proof.
  exact (proj2 (requests_stay_under_service_root Examples.stop_83139
                  Examples.serving _ (or_introl eq_refl))).
Defined.

(** X5. Arguments a tool does not read are ignored: two present mappings
    that agree on the arguments the tool forwards give the same run, and a
    tool that forwards nothing runs the same on every mapping, present or
    absent. *)
Theorem unread_arguments_are_ignored
  (n : string) (a1 a2 : list (string * Json)) (w : World) :
  (forall a, In a (map snd (forwarded n)) -> assoc a a1 = assoc a a2) ->
  call_tool {| name := n; arguments := Some a1 |} w
  = call_tool {| name := n; arguments := Some a2 |} w
  /\ (forwarded n = [] ->
      forall a, call_tool {| name := n; arguments := a |} w
                = call_tool {| name := n; arguments := None |} w).
Proof.
  intros Hagree. rewrite call_tool_route.
  rewrite (call_tool_route {| name := n; arguments := Some a2 |}).
  split.
  - unfold route. cbn [name arguments].
    destruct (endpoint n) as [u|]; [|reflexivity].
    assert (Hq : query n a1 = query n a2).
    { unfold query. induction (forwarded n) as [|[k a] l IH]; [reflexivity|].
      cbn [flat_map fst snd].
      rewrite (Hagree a) by (cbn; left; reflexivity).
      rewrite IH; [reflexivity|].
      intros a' HIn. apply Hagree. cbn. right. exact HIn. }
    rewrite Hq. reflexivity.
  - intros Hnone a. rewrite !call_tool_route. unfold route.
    cbn [name arguments]. rewrite Hnone. reflexivity.
Qed.

Lemma unread_arguments_are_ignored_witness :
  call_tool {| name := "bus_arrival";
               arguments := Some [("busStopCode", JStr "83139");
                                  ("trainLine", JStr "NSL")] |}
    Examples.serving
  = call_tool Examples.stop_83139 Examples.serving.
Proof.
  refine (proj1 (unread_arguments_are_ignored "bus_arrival"
                   [("busStopCode", JStr "83139"); ("trainLine", JStr "NSL")]
                   [("busStopCode", JStr "83139")] Examples.serving _)).
  cbn. intros a [<-|[<-|[]]]; reflexivity.
Defined.

Lemma sends_fetched (request : CallToolRequest) (w : World) :
  sends request = true ->
  exists u ps, call_tool request w = fetched w u ps.
Proof.
  rewrite call_tool_route. unfold route, sends.
  destruct request as [n a]. cbn [name arguments].
  destruct (binding_cases n)
    as [[-> ->]|[-> [u [-> [_ [[-> ->]|[-> [ka [l ->]]]]]]]]]; cbn;
    try discriminate.
  - intros _. eexists. eexists. reflexivity.
  - destruct a as [args|]; [|discriminate].
    intros _. eexists. eexists. reflexivity.
Qed.

Lemma sent_fetched (request : CallToolRequest) (w : World) (req : Request) :
  In req (trace (call_tool request w)) ->
  exists u ps,
    call_tool request w = fetched w u ps /\ req = request_to w u ps.
Proof.
  destruct (call_tool_dispatched request w)
    as [_ Heq|first _ _ _ Heq|u ps _ _ _ _ Heq]; rewrite Heq;
    cbn; try (intros []; fail).
  intros [<-|[]]. exists u, ps. split; reflexivity.
Qed.

Lemma fetched_ext (w1 w2 : World) (u : string)
  (ps : option (list (string * JsVal))) :
  process_env w1 "LTA_API_KEY" = process_env w2 "LTA_API_KEY" ->
  request_to w1 u ps = request_to w2 u ps
  /\ ((forall req, upstream w1 req = upstream w2 req) ->
      fetched w1 u ps = fetched w2 u ps).
Proof.
  intros Hkey.
  assert (E : request_to w1 u ps = request_to w2 u ps).
  { unfold request_to, expected_headers. rewrite Hkey. reflexivity. }
  split; [exact E|]. intros Hup. unfold fetched. rewrite E, Hup. reflexivity.
Qed.

Lemma assoc_In {A : Type} (k : string) (v : A) (l : list (string * A)) :
  assoc k l = Some v -> In (k, v) l.
Proof.
  induction l as [|[k' v'] l IH]; cbn; [discriminate|].
  destruct (String.eqb_spec k' k) as [->|_].
  - intros [= ->]. left. reflexivity.
  - intros H. right. apply IH. exact H.
Qed.

Lemma In_registered (n : string) :
  In n registered_names -> is_registered n = true.
Proof.
  intros H. unfold is_registered. apply existsb_exists.
  exists n. split; [exact H|apply String.eqb_refl].
Qed.

(** X6. The line code is not checked against the enumeration the schema
    advertises: whatever value [trainLine] holds, a line code outside the
    eleven or a value that is no string, both train-line tools forward it
    unchanged as [TrainLine] and complete as the upstream exchange does. *)
Theorem trainLine_is_not_checked_against_enum
  (tool : string) (v : Json) (args : list (string * Json)) (w : World) :
  is_train_line_tool tool = true ->
  assoc "trainLine" args = Some v ->
  exists req,
    trace (call_tool {| name := tool; arguments := Some args |} w) = [req]
    /\ params (config req) = Some [("TrainLine", Some v)]
    /\ outcome (call_tool {| name := tool; arguments := Some args |} w)
       = conclude (settle (upstream w req)).
Proof.
  intros Htool Hv.
  destruct (call_tool_train_line tool (Some args) w Htool) as [u [_ Heq]].
  rewrite Heq, Hv. eexists. split; [reflexivity|]. split; reflexivity.
Qed.

Lemma trainLine_is_not_checked_against_enum_witness :
  ~ In "XYZ" train_lines
  /\ exists req,
       trace (call_tool {| name := "station_crowd_forecast";
                           arguments := Some [("trainLine", JStr "XYZ")] |}
                Examples.serving) = [req]
       /\ params (config req) = Some [("TrainLine", Some (JStr "XYZ"))].
Proof.
  split.
  - cbn. intros H.
    repeat (destruct H as [H|H]; [discriminate H|]). exact H.
  - destruct (trainLine_is_not_checked_against_enum "station_crowd_forecast"
                (JStr "XYZ") [("trainLine", JStr "XYZ")] Examples.serving
                eq_refl eq_refl) as [req [H1 [H2 _]]].
    exists req. split; [exact H1|exact H2].
Defined.

(** X7. [bus_arrival] does not check its required argument either: on a
    present mapping without [busStopCode] it still sends its one request,
    with [BusStopCode] holding [undefined], and completes as the upstream
    exchange does. *)
Theorem missing_busStopCode_is_forwarded_undefined
  (args : list (string * Json)) (w : World) :
  assoc "busStopCode" args = None ->
  exists req,
    trace (call_tool {| name := "bus_arrival"; arguments := Some args |} w)
    = [req]
    /\ param "BusStopCode" req = Some undefined
    /\ outcome (call_tool {| name := "bus_arrival"; arguments := Some args |} w)
       = conclude (settle (upstream w req)).
Proof.
  intros Hb. rewrite call_tool_bus_arrival, Hb.
  eexists. split; [reflexivity|]. split; reflexivity.
Qed.

Lemma missing_busStopCode_is_forwarded_undefined_witness :
  exists req,
    trace (call_tool {| name := "bus_arrival"; arguments := Some [] |}
             Examples.serving) = [req]
    /\ param "BusStopCode" req = Some undefined
    /\ outcome (call_tool {| name := "bus_arrival"; arguments := Some [] |}
                  Examples.serving)
       = conclude (settle (upstream Examples.serving req)).
Proof.
  exact (missing_busStopCode_is_forwarded_undefined [] Examples.serving
           eq_refl).
Defined.

(** X8. The account key is not checked before use: when [LTA_API_KEY] is
    not set, a call that sends a request still sends it, with the
    [AccountKey] header holding [undefined], and completes as the upstream
    exchange does. *)
Theorem missing_api_key_is_not_checked
  (request : CallToolRequest) (w : World) :
  process_env w "LTA_API_KEY" = None ->
  sends request = true ->
  exists req,
    trace (call_tool request w) = [req]
    /\ assoc "AccountKey" (headers (config req)) = Some undefined
    /\ outcome (call_tool request w) = conclude (settle (upstream w req)).
Proof.
  intros Hkey Hsends.
  destruct (sends_fetched request w Hsends) as [u [ps Heq]]. rewrite Heq.
  eexists. split; [reflexivity|]. split; [|reflexivity].
  cbn. rewrite Hkey. reflexivity.
Qed.

Lemma missing_api_key_is_not_checked_witness :
  exists req,
    trace (call_tool Examples.alerts
             {| process_env := fun _ => None;
                upstream := upstream Examples.rejecting |}) = [req]
    /\ assoc "AccountKey" (headers (config req)) = Some undefined
    /\ outcome (call_tool Examples.alerts
                  {| process_env := fun _ => None;
                     upstream := upstream Examples.rejecting |})
       = Returned (flagged "LTA API error: Invalid Account Key").
Proof.
  destruct (missing_api_key_is_not_checked Examples.alerts
              {| process_env := fun _ => None;
                 upstream := upstream Examples.rejecting |}
              eq_refl eq_refl) as [req [H1 [H2 H3]]].
  exists req. split; [exact H1|]. split; [exact H2|].
  rewrite H3. reflexivity.
Defined.

(** X9. Of the process environment a call reads [LTA_API_KEY] and nothing
    else: in two worlds that agree on that variable and on the upstream,
    every call runs the same. *)
Theorem only_the_api_key_is_read
  (request : CallToolRequest) (w1 w2 : World) :
  process_env w1 "LTA_API_KEY" = process_env w2 "LTA_API_KEY" ->
  (forall req, upstream w1 req = upstream w2 req) ->
  call_tool request w1 = call_tool request w2.
Proof.
  intros Hkey Hup. rewrite !call_tool_route. unfold route.
  destruct (endpoint (name request)) as [u|]; [|reflexivity].
  destruct (forwarded (name request)) as [|ka l].
  - apply fetched_ext; assumption.
  - destruct (arguments request); [|reflexivity].
    apply fetched_ext; assumption.
Qed.

Lemma only_the_api_key_is_read_witness :
  call_tool Examples.stop_83139
    {| process_env := fun k => if k =? "LTA_API_KEY"
                               then Some "test-account-key"
                               else Some "other";
       upstream := upstream Examples.serving |}
  = call_tool Examples.stop_83139 Examples.serving.
Proof.
  apply (only_the_api_key_is_read Examples.stop_83139
           {| process_env := fun k => if k =? "LTA_API_KEY"
                                      then Some "test-account-key"
                                      else Some "other";
              upstream := upstream Examples.serving |}
           Examples.serving).
  - reflexivity.
  - intros req. reflexivity.
Defined.

(** X10. What a call sends is fixed by the request and the account key
    before the upstream says anything: in two worlds that agree on
    [LTA_API_KEY], whatever their upstreams do, a call sends the same
    requests. *)
Theorem request_does_not_depend_on_upstream
  (request : CallToolRequest) (w1 w2 : World) :
  process_env w1 "LTA_API_KEY" = process_env w2 "LTA_API_KEY" ->
  trace (call_tool request w1) = trace (call_tool request w2).
Proof.
  intros Hkey. rewrite !call_tool_route. unfold route.
  destruct (endpoint (name request)) as [u|]; [|reflexivity].
  destruct (forwarded (name request)) as [|ka l].
  - unfold fetched, trace. cbn [fst].
    rewrite (proj1 (fetched_ext w1 w2 u None Hkey)). reflexivity.
  - destruct (arguments request) as [args|]; [|reflexivity].
    unfold fetched, trace. cbn [fst].
    rewrite (proj1 (fetched_ext w1 w2 u _ Hkey)). reflexivity.
Qed.

Lemma request_does_not_depend_on_upstream_witness :
  trace (call_tool Examples.stop_83139_service_15 Examples.rejecting)
  = trace (call_tool Examples.stop_83139_service_15 Examples.serving).
Proof.
  exact (request_does_not_depend_on_upstream Examples.stop_83139_service_15
           Examples.rejecting Examples.serving eq_refl).
Defined.

(** X11. The catalog and the dispatcher agree on the tool names: a call
    is rejected as an unknown tool exactly when its name is not the name
    of a descriptor that list-tools returns. *)
Theorem listed_tools_are_the_callable_ones
  (request : CallToolRequest) (w : World) :
  In (name request) (map tool_name catalog)
  <-> call_tool request w
      <> ([], Thrown (McpError MethodNotFound
                        ("Unknown tool: " ++ name request))).
Proof.
  change (map tool_name catalog) with registered_names.
  split.
  - intros HIn. apply In_registered in HIn.
    rewrite call_tool_route. unfold route.
    destruct (binding_cases (name request))
      as [[Hreg _]|[_ [u [-> _]]]]; [congruence|].
    destruct (forwarded (name request)) as [|ka l]; [discriminate|].
    destruct (arguments request); discriminate.
  - intros Hne. destruct (is_registered (name request)) eqn:Hreg.
    + apply existsb_eqb_In. exact Hreg.
    + exfalso. apply Hne. apply call_tool_default.
      apply is_registered_false. exact Hreg.
Qed.

Lemma listed_tools_are_the_callable_ones_witness :
  call_tool Examples.alerts Examples.unreachable
  <> ([], Thrown (McpError MethodNotFound "Unknown tool: train_alerts")).
Proof.
  apply (proj1 (listed_tools_are_the_callable_ones Examples.alerts
                  Examples.unreachable)).
  cbn. tauto.
Defined.

Lemma forwarded_declared (t : Tool) :
  In t catalog ->
  In (tool_name t) registered_names
  /\ (forall k a, In (k, a) (forwarded (tool_name t)) -> In a (declared t))
  /\ (forall a, In a (declared t) ->
        exists k, In (k, a) (forwarded (tool_name t))).
Proof.
  intros HIn. cbn in HIn.
  repeat (destruct HIn as [<-|HIn];
          [split; [cbn; tauto|]; split;
           [intros k a H; cbn in H |- *;
            repeat (destruct H as [[= <- <-]|H]; [tauto|]); contradiction
           |intros a H; cbn in H;
            repeat (destruct H as [<-|H];
                    [eexists; cbn; first [left; reflexivity
                                         |right; left; reflexivity]|]);
            contradiction]|]).
  contradiction.
Qed.

(** X12. The input schemas and the handlers agree on the parameters: in a
    call of a listed tool with a present argument mapping, every argument
    the schema declares that holds a truthy value is carried, unchanged,
    by a query parameter of the one request sent, and every query
    parameter of that request carries, unchanged, an argument the schema
    declares. *)
Theorem schema_agrees_with_handlers
  (t : Tool) (args : list (string * Json)) (w : World) :
  In t catalog ->
  exists req,
    trace (call_tool {| name := tool_name t; arguments := Some args |} w)
    = [req]
    /\ (forall p v,
          In p (declared t) -> assoc p args = Some v ->
          truthy (Some v) = true ->
          exists k, param k req = Some (Some v))
    /\ (forall k v,
          param k req = Some v ->
          exists p, In p (declared t) /\ v = assoc p args).
Proof.
  intros HIn. destruct (forwarded_declared t HIn) as [Hreg [Hfd Hdf]].
  destruct (call_tool_dispatched
              {| name := tool_name t; arguments := Some args |} w)
    as [Hn _|first _ _ Hnone _|u ps _ _ Hfw Htr Heq].
  - contradiction.
  - discriminate Hnone.
  - cbn [name arguments] in Hfw, Htr. rewrite Heq.
    exists (request_to w u ps). split; [reflexivity|]. split.
    + intros p v Hp Hv Ht. destruct (Hdf p Hp) as [k Hk].
      exists k. unfold param. cbn [config params request_to].
      assert (Ht' : truthy (assoc p args) = true) by (rewrite Hv; exact Ht).
      destruct (Htr args k p eq_refl Hk Ht') as [l [-> Hl]].
      rewrite Hl, Hv. reflexivity.
    + intros k v. unfold param. cbn [config params request_to].
      destruct ps as [l|]; [|discriminate].
      intros Hl. apply assoc_In in Hl.
      destruct (Hfw l k v eq_refl Hl) as [a [args' [Hka [[= <-] ->]]]].
      exists a. split; [exact (Hfd k a Hka)|reflexivity].
Qed.

Lemma schema_agrees_with_handlers_witness :
  exists req,
    trace (call_tool Examples.stop_83139_service_15 Examples.serving) = [req]
    /\ exists k, param k req = Some (Some (JStr "15")).
Proof.
  destruct (find_tool "bus_arrival" catalog) as [t|] eqn:Hfind;
    [|discriminate Hfind].
  injection Hfind as <-.
  destruct (schema_agrees_with_handlers _
              [("busStopCode", JStr "83139"); ("serviceNo", JStr "15")]
              Examples.serving (or_introl eq_refl))
    as [req [H1 [H2 _]]].
  exists req. split; [exact H1|].
  apply (H2 "serviceNo" (JStr "15")); [cbn; tauto|reflexivity|reflexivity].
Defined.

(** X13. Whatever is returned has the one shape: the content is exactly
    one block of type ["text"], and [isError] is either absent or [true],
    never [false]; when it is [true] the text starts with
    ['LTA API error: ']. *)
Theorem returned_result_shape
  (request : CallToolRequest) (w : World) (r : CallToolResult) :
  outcome (call_tool request w) = Returned r ->
  exists t,
    content r = [{| type := "text"; text := t |}]
    /\ (isError r = None
        \/ (isError r = Some true
            /\ exists m, t = Some ("LTA API error: " ++ m))).
Proof.
  destruct (call_tool_dispatched request w)
    as [_ Heq|first _ _ _ Heq|u ps _ _ _ _ Heq]; rewrite Heq; cbn;
    try discriminate.
  destruct (settle _) as [response|e]; cbn.
  - intros [= <-]. eexists. split; [reflexivity|]. left. reflexivity.
  - destruct (isAxiosError e); [|discriminate].
    destruct (preferred_message e) as [message|]; [|discriminate].
    intros [= <-]. eexists. split; [reflexivity|]. right.
    split; [reflexivity|]. eexists. reflexivity.
Qed.

Lemma returned_result_shape_witness :
  exists t,
    content (flagged "LTA API error: Invalid Account Key")
    = [{| type := "text"; text := t |}]
    /\ (isError (flagged "LTA API error: Invalid Account Key") = None
        \/ (isError (flagged "LTA API error: Invalid Account Key") = Some true
            /\ exists m, t = Some ("LTA API error: " ++ m))).
Proof.
  exact (returned_result_shape Examples.stop_83139 Examples.rejecting
           (flagged "LTA API error: Invalid Account Key") eq_refl).
Defined.

(** X14. The upstream message is kept whenever it is not [null], also
    when it is falsy: on a rejected status whose body is an object with a
    [Message] other than [null], the text is the prefix followed by that
    value converted to a string, so an empty [Message] leaves the prefix
    alone and the transport's message is not used.  Where the value has
    no string form, an object with a [toString] property or an array
    that holds one, the conversion throws and the call throws a
    [TypeError] instead of returning. *)
Theorem falsy_Message_is_kept
  (request : CallToolRequest) (w : World) (req : Request) (st : Z)
  (fields : list (string * Json)) (m : Json) :
  trace (call_tool request w) = [req] ->
  upstream w req = Responded st (Some (JObj fields)) ->
  validateStatus st = false ->
  assoc "Message" fields = Some m ->
  m <> JNull ->
  outcome (call_tool request w)
  = match ToString m with
    | Some message => Returned (flagged ("LTA API error: " ++ message))
    | None => Thrown (TypeError "Cannot convert object to primitive value")
    end
  /\ (m = JStr EmptyString ->
      outcome (call_tool request w) = Returned (flagged "LTA API error: "))
  /\ (forall properties value,
        m = JObj properties ->
        assoc "toString" properties = Some value ->
        outcome (call_tool request w)
        = Thrown (TypeError "Cannot convert object to primitive value")).
Proof.
  intros Ht Hup Hst Hm Hnull.
  assert (HIn : In req (trace (call_tool request w)))
    by (rewrite Ht; left; reflexivity).
  destruct (sent_fetched request w req HIn) as [u [ps [Heq ->]]].
  assert (G : outcome (call_tool request w)
              = match ToString m with
                | Some message =>
                    Returned (flagged ("LTA API error: " ++ message))
                | None =>
                    Thrown (TypeError "Cannot convert object to primitive value")
                end).
  { rewrite Heq. unfold fetched, outcome. cbn [snd]. rewrite Hup.
    cbn. rewrite Hst. cbn. unfold preferred_message, body_Message. cbn.
    rewrite Hm. destruct m; try reflexivity. contradiction. }
  split; [exact G|]. split.
  - intros ->. exact G.
  - intros properties value -> Hv. rewrite G. cbn. rewrite Hv. reflexivity.
Qed.

Lemma falsy_Message_is_kept_witness :
  outcome (call_tool Examples.alerts
             {| process_env := Examples.env;
                upstream := fun _ =>
                  Responded 500
                    (Some (JObj [("Message", JStr EmptyString)])) |})
  = Returned (flagged "LTA API error: ").
Proof.
  refine (proj1 (proj2 (falsy_Message_is_kept Examples.alerts
                   {| process_env := Examples.env;
                      upstream := fun _ =>
                        Responded 500
                          (Some (JObj [("Message", JStr EmptyString)])) |}
                   _ 500%Z [("Message", JStr EmptyString)]
                   (JStr EmptyString) eq_refl eq_refl eq_refl eq_refl _))
            eq_refl).
  discriminate.
Defined.

Lemma endpoint_injective (n1 n2 u : string) :
  endpoint n1 = Some u -> endpoint n2 = Some u -> n1 = n2.
Proof.
  intros H1 H2.
  assert (R : forall n, endpoint n = Some u -> In n registered_names).
  { intros n H. destruct (binding_cases n) as [[_ Hnone]|[Hreg _]].
    - rewrite Hnone in H. discriminate.
    - apply existsb_eqb_In. exact Hreg. }
  pose proof (R n1 H1) as G1. pose proof (R n2 H2) as G2.
  cbn in G1, G2.
  repeat (destruct G1 as [<-|G1];
          [repeat (destruct G2 as [<-|G2];
                   [first [reflexivity
                          |cbn in H1, H2; rewrite <- H1 in H2; discriminate H2]
                   |]);
           contradiction|]).
  contradiction.
Qed.

Lemma sent_endpoint (request : CallToolRequest) (w : World) (req : Request) :
  In req (trace (call_tool request w)) ->
  endpoint (name request) = Some (url req)
  /\ headers (config req) = expected_headers w.
Proof.
  destruct (call_tool_dispatched request w)
    as [_ Heq|first _ _ _ Heq|u ps Hurl _ _ _ Heq]; rewrite Heq;
    cbn; try (intros []; fail).
  intros [<-|[]]. split; [exact Hurl|reflexivity].
Qed.

(** X15. No two tools share an endpoint: when two calls, in whatever
    worlds, send requests to the same URL, they are calls of the same
    tool. *)
Theorem distinct_tools_have_distinct_endpoints
  (r1 r2 : CallToolRequest) (w1 w2 : World) (q1 q2 : Request) :
  In q1 (trace (call_tool r1 w1)) ->
  In q2 (trace (call_tool r2 w2)) ->
  url q1 = url q2 ->
  name r1 = name r2.
Proof.
  intros H1 H2 Hurl.
  apply sent_endpoint in H1. apply sent_endpoint in H2.
  destruct H1 as [H1 _]. destruct H2 as [H2 _].
  rewrite Hurl in H1. exact (endpoint_injective _ _ _ H1 H2).
Qed.

Lemma distinct_tools_have_distinct_endpoints_witness :
  name Examples.stop_83139 = name Examples.stop_83139_service_15.
Proof.
  exact (distinct_tools_have_distinct_endpoints Examples.stop_83139
           Examples.stop_83139_service_15 Examples.rejecting Examples.serving
           _ _ (or_introl eq_refl) (or_introl eq_refl) eq_refl).
Defined.

(** X16. The key of the Smithery configuration is the key sent: when the
    server runs in a process started with the command that
    [commandFunction] builds from a configuration, every request of every
    call carries that configuration's [ltaApiKey] as its [AccountKey]
    header. *)
Theorem smithery_key_reaches_every_request
  (cfg : Smithery.Config) (w : World) (request : CallToolRequest)
  (req : Request) :
  Smithery.started_by (Smithery.commandFunction cfg) w ->
  In req (trace (call_tool request w)) ->
  assoc "AccountKey" (headers (config req))
  = Some (Some (JStr (Smithery.ltaApiKey cfg))).
Proof.
  intros Hstart HIn.
  destruct (sent_endpoint request w req HIn) as [_ ->].
  cbn. rewrite (Hstart "LTA_API_KEY" (Smithery.ltaApiKey cfg) eq_refl).
  reflexivity.
Qed.

Lemma smithery_key_reaches_every_request_witness :
  assoc "AccountKey"
    (headers (config (Examples.bus_request
                        [("BusStopCode", Some (JStr "83139"))])))
  = Some (Some (JStr "test-account-key")).
Proof.
  apply (smithery_key_reaches_every_request
           {| Smithery.ltaApiKey := "test-account-key" |}
           Examples.serving Examples.stop_83139).
  - intros k v. cbn -[String.eqb].
    destruct (String.eqb_spec "LTA_API_KEY" k) as [<-|_]; [|discriminate].
    intros [= <-]. reflexivity.
  - left. reflexivity.
Defined.

(* ===================================================================== *)
(** ** Properties of the process lifecycle                                 *)
(* ===================================================================== *)

Lemma start_well_behaved (connect_failure : option JsError) :
  Lifecycle.status (Lifecycle.start connect_failure)
  = match connect_failure with
    | None => Lifecycle.Running
    | Some _ => Lifecycle.Drained
    end
  /\ Lifecycle.well_behaved (Lifecycle.start connect_failure).
Proof.
  destruct connect_failure as [e|]; split; try reflexivity;
    split; reflexivity.
Qed.

Lemma step_well_behaved (p : Lifecycle.Process) (ev : Lifecycle.Event) :
  Lifecycle.well_behaved p -> Lifecycle.well_behaved (Lifecycle.step p ev).
Proof.
  unfold Lifecycle.well_behaved, Lifecycle.step.
  destruct p as [t st]. cbn [Lifecycle.effects Lifecycle.status].
  intros [Hout Hst].
  destruct st as [|code|e|]; try (split; assumption).
  destruct ev as [[e|]|e]; cbn [Lifecycle.listener Lifecycle.effects
                                 Lifecycle.status];
    cbn; rewrite !existsb_app, ?Hout, ?Hst; cbn.
  - split; reflexivity.
  - split; [reflexivity|]. split; [reflexivity|].
    exists t. split; [reflexivity|exact Hst].
  - split; reflexivity.
Qed.

Lemma run_well_behaved (events : list Lifecycle.Event) (p : Lifecycle.Process) :
  Lifecycle.well_behaved p ->
  Lifecycle.well_behaved (fold_left Lifecycle.step events p).
Proof.
  revert p. induction events as [|ev events IH]; intros p Hp; cbn.
  - exact Hp.
  - apply IH. apply step_well_behaved. exact Hp.
Qed.

Lemma stopped_stays (events : list Lifecycle.Event) (p : Lifecycle.Process) :
  Lifecycle.status p <> Lifecycle.Running ->
  fold_left Lifecycle.step events p = p.
Proof.
  intros Hp. induction events as [|ev events IH]; cbn; [reflexivity|].
  unfold Lifecycle.step at 2.
  destruct (Lifecycle.status p) eqn:E; [contradiction|exact IH..].
Qed.


(** X18. Whatever the connect outcome and whatever signals and server
    errors follow, the program's own statements never write to the
    standard output, which the protocol uses, and never call
    [process.exit] with a status other than 0: in a process that has
    called it the log ends with [Close; Exit 0], the only exit call in
    it, so the server is closed right before; in every other process,
    the one that ended by itself after a failed connect included, the
    log holds no exit call. *)
Theorem process_exits_only_cleanly
  (connect_failure : option JsError) (events : list Lifecycle.Event) :
  existsb Lifecycle.writes_stdout
    (Lifecycle.effects (Lifecycle.execute connect_failure events)) = false
  /\ match Lifecycle.status (Lifecycle.execute connect_failure events) with
     | Lifecycle.Exited code =>
         code = 0%Z
         /\ exists before,
              Lifecycle.effects (Lifecycle.execute connect_failure events)
              = (before ++ [Lifecycle.Close; Lifecycle.Exit 0])%list
              /\ existsb Lifecycle.is_exit before = false
     | _ =>
         existsb Lifecycle.is_exit
           (Lifecycle.effects (Lifecycle.execute connect_failure events))
         = false
     end.
Proof.
  apply (run_well_behaved events (Lifecycle.start connect_failure)).
  apply start_well_behaved.
Qed.

(** X19. After a failed connect the process ends by itself, whatever
    follows: it handles no signal and its log stays that of the start-up.
    After a successful connect, errors reported by the protocol layer are
    logged and the process runs on, and at the first [SIGINT] the process
    exits with status 0 if closing the server succeeds; if closing fails
    the listener makes no exit call and its rejection is left to the
    runtime, where the model stops following the process. *)
Theorem sigint_ends_a_connected_process
  (connect_failure : option JsError) (events : list Lifecycle.Event) :
  Lifecycle.status (Lifecycle.execute connect_failure events)
  = match connect_failure with
    | Some _ => Lifecycle.Drained
    | None =>
        match find Lifecycle.is_sigint events with
        | Some (Lifecycle.SIGINT None) => Lifecycle.Exited 0
        | Some (Lifecycle.SIGINT (Some e)) => Lifecycle.Rejected e
        | _ => Lifecycle.Running
        end
    end
  /\ (forall e, connect_failure = Some e ->
      Lifecycle.execute connect_failure events
      = Lifecycle.start connect_failure).
Proof.
  unfold Lifecycle.execute.
  destruct (start_well_behaved connect_failure) as [Hstart _].
  destruct connect_failure as [e0|].
  - assert (E : fold_left Lifecycle.step events (Lifecycle.start (Some e0))
                = Lifecycle.start (Some e0))
      by (apply stopped_stays; rewrite Hstart; discriminate).
    split; [rewrite E; exact Hstart|]. intros e _. exact E.
  - split; [|discriminate].
    revert Hstart. generalize (Lifecycle.start None).
    induction events as [|ev events IH]; intros p Hrun; cbn [fold_left find].
    + exact Hrun.
    + destruct ev as [[e|]|e]; cbn [Lifecycle.is_sigint].
      * rewrite stopped_stays;
          unfold Lifecycle.step; rewrite Hrun; cbn; [reflexivity|discriminate].
      * rewrite stopped_stays;
          unfold Lifecycle.step; rewrite Hrun; cbn; [reflexivity|discriminate].
      * apply IH. unfold Lifecycle.step. rewrite Hrun. reflexivity.
Qed.

Lemma sigint_ends_a_connected_process_witness :
  Lifecycle.execute (Some (OtherError "connect failed"))
    [Lifecycle.SIGINT None]
  = Lifecycle.start (Some (OtherError "connect failed")).
Proof.
  exact (proj2 (sigint_ends_a_connected_process
                  (Some (OtherError "connect failed"))
                  [Lifecycle.SIGINT None])
           (OtherError "connect failed") eq_refl).
Defined.

(** *** Conversions on concrete values *)

Example stringify_numbers :
  JSON_stringify
    (Some (JArr [JNum (Finite "1.3521"); JNum (Finite "1e+21");
                 JNum (Infinity false)])) 2
  = Some ("[" ++ LF ++ "  1.3521," ++ LF ++ "  1e+21," ++ LF ++ "  null"
          ++ LF ++ "]").
Proof. reflexivity. Qed.

Example ToString_array :
  ToString (JArr [JNum (Finite "1"); JNull; JArr [JStr "a"; JBool true];
                  JObj [("valueOf", JNum (Finite "0"))]])
  = Some "1,,a,true,[object Object]".
Proof. reflexivity. Qed.

Example ToString_throws :
  ToString (JArr [JStr "a"; JObj [("toString", JNull)]]) = None.
Proof. reflexivity. Qed.

Example unprintable_Message_run :
  call_tool Examples.alerts Examples.rejecting_unprintable
  = ([request_to Examples.rejecting_unprintable
        "https://datamall2.mytransport.sg/ltaodataservice/TrainServiceAlerts"
        None],
     Thrown (TypeError "Cannot convert object to primitive value")).
Proof. reflexivity. Qed.
